(** * Trieste: optimisation of acquisition functions over search spaces

    A shallow embedding of [trieste/acquisition/optimizer.py] and of the
    argument checks of [trieste/models/bayesfunc/architectures.py].

    Tensors are modelled as TensorFlow stores them: a shape and the elements
    in row-major order.  Integer shapes read through [tf.shape] are 32-bit
    and wrap around.  Floating-point elements are idealised as real numbers
    ([R]); the discrete maximiser is generic in the element type, so it also
    runs on integer tensors.  Where rounding decides, the forward transform
    of the bijector is also given on binary64 numbers ([Float64]). *)

From Stdlib Require Import String.
From Stdlib Require Import List ZArith Lia Bool Reals Lra.
From Stdlib Require PrimFloat.
Import ListNotations.

(** ** Exceptions and the error monad *)

(** A piece of a formatted message: literal text, or a shape tensor
    interpolated into an f-string. *)
Inductive fragment : Type :=
| Text (s : string)
| FmtShape (dims : list Z).

Definition message := list fragment.

Inductive exn : Type :=
| ValueError (msg : message)
| InvalidArgumentError (msg : message).

Inductive result (A : Type) : Type :=
| Ok (a : A)
| Raise (e : exn).

Arguments Ok {A} a.
Arguments Raise {A} e.

Definition bind {A B : Type} (m : result A) (k : A -> result B) : result B :=
  match m with
  | Ok a => k a
  | Raise e => Raise e
  end.

Notation "x <- m ;; k" := (bind m (fun x => k))
  (at level 61, m at next level, right associativity).
Notation "m ;;; k" := (bind m (fun _ => k))
  (at level 61, right associativity).

(** ** Tensors *)

Record tensor (T : Type) : Type := Tensor {
  shape : list nat;
  data : list T
}.

Arguments Tensor {T} shape data.
Arguments shape {T} t.
Arguments data {T} t.

Definition numel (dims : list nat) : nat := fold_right Nat.mul 1%nat dims.

(** A tensor is well formed when it holds as many elements as its shape
    says. *)
Definition well_formed {T : Type} (t : tensor T) : Prop :=
  length (data t) = numel (shape t).

(** 32-bit two's complement wrap-around. *)
Definition wrap32 (z : Z) : Z := ((z + 2 ^ 31) mod 2 ^ 32 - 2 ^ 31)%Z.

(** [tf.shape]: the shape as an int32 vector. *)
Definition tf_shape {T : Type} (t : tensor T) : list Z :=
  map (fun d => wrap32 (Z.of_nat d)) (shape t).

(** Row [i] of a tensor whose rows hold [k] elements. *)
Definition row {T : Type} (k i : nat) (xs : list T) : list T :=
  firstn k (skipn (i * k) xs).

(** Column [j] of [m] rows of [k] elements. *)
Definition column {T : Type} (m k j : nat) (xs : list T) : list T :=
  flat_map (fun i => match nth_error xs (i * k + j) with
                     | Some x => [x]
                     | None => []
                     end) (seq 0 m).

(** [tf.debugging.assert_shapes([(t, ("_", 1))], message=...)]: the tensor
    has rank 2 and its second dimension is 1; the symbol ["_"] binds the
    first dimension to whatever size it has. *)
Definition assert_shapes_any_1 {T : Type} (t : tensor T) (msg : message)
  : result unit :=
  match shape t with
  | [_; 1%nat] => Ok tt
  | _ => Raise (ValueError msg)
  end.

(** Bound of a slice, clamped the way Python and TensorFlow clamp it. *)
Definition clamp_index (n i : Z) : Z :=
  if (i <? 0)%Z then Z.max 0 (i + n) else Z.min i n.

(** [t[b:e]]: a slice along the first axis. *)
Definition slice_rows {T : Type} (t : tensor T) (b e : Z) : result (tensor T) :=
  match shape t with
  | [] => Raise (ValueError [Text "Index out of range using input dim 0"])
  | n :: rest =>
      let k := numel rest in
      let b' := clamp_index (Z.of_nat n) b in
      let e' := clamp_index (Z.of_nat n) e in
      let cnt := Z.to_nat (e' - b') in
      Ok (Tensor (cnt :: rest)
                 (firstn (cnt * k) (skipn (Z.to_nat b' * k) (data t))))
  end.

(** [t[0]] of an index vector, read as a Python integer. *)
Definition item0 (t : tensor Z) : result Z :=
  match shape t, data t with
  | [_], i :: _ => Ok i
  | _, _ => Raise (InvalidArgumentError [Text "slice index 0 out of bounds"])
  end.

(** ** Element types *)

(** The order of an element type, as [tf.argmax] needs it. *)
Class Dtype (T : Type) : Type := {
  lt : T -> T -> bool;
  lt_asym : forall x y, lt x y = true -> lt y x = false;
  lt_negtrans : forall x y z, lt x z = true -> lt x y = true \/ lt y z = true
}.

#[global, refine] Instance Dtype_Z : Dtype Z := {| lt := Z.ltb |}.
Proof.
  - intros x y H. apply Z.ltb_lt in H. apply Z.ltb_ge. lia.
  - intros x y z H. apply Z.ltb_lt in H.
    destruct (Z.ltb_spec x y); [now left | right; apply Z.ltb_lt; lia].
Defined.

Definition Rltb (x y : R) : bool := if Rlt_dec x y then true else false.

#[global, refine] Instance Dtype_R : Dtype R := {| lt := Rltb |}.
Proof.
  - intros x y. unfold Rltb.
    destruct (Rlt_dec x y), (Rlt_dec y x); intros; try easy; lra.
  - intros x y z. unfold Rltb.
    destruct (Rlt_dec x z), (Rlt_dec x y), (Rlt_dec y z); intros;
      try easy; try (now left); try (now right); lra.
Defined.

(** ** The discrete maximiser *)

Section Discrete.

Context {T : Type} `{Dtype T}.

(** Index of the largest element, the first one on ties: the scan keeps the
    best element seen so far and replaces it only by a strictly larger
    one. *)
Fixpoint argmax_from (best_i : nat) (best : T) (i : nat) (xs : list T) : nat :=
  match xs with
  | [] => best_i
  | x :: xs' =>
      if lt best x then argmax_from i x (S i) xs'
      else argmax_from best_i best (S i) xs'
  end.

Definition argmax_list (xs : list T) : nat :=
  match xs with
  | [] => 0%nat
  | x :: xs' => argmax_from 0 x 1 xs'
  end.

(** [tf.argmax(t, axis=0)]: for every position of the remaining axes, the
    index along the first axis of the largest element, as an int64
    tensor. *)
Definition tf_argmax0 (t : tensor T) : result (tensor Z) :=
  match shape t with
  | [] => Raise (InvalidArgumentError [Text "Expected dimension in the range [0, 0), but got 0"])
  | m :: rest =>
      let k := numel rest in
      if (m =? 0)%nat
      then Raise (InvalidArgumentError [Text "Reduction axis 0 is empty in shape "; FmtShape (tf_shape t)])
      else Ok (Tensor rest
                 (map (fun j => Z.of_nat (argmax_list (column m k j (data t))))
                      (seq 0 k)))
  end.

Definition AcquisitionFunction : Type := tensor T -> tensor T.

Definition _discrete_space (points : tensor T) (target_func : AcquisitionFunction)
  : result (tensor T) :=
  let target_func_values := target_func points in
  assert_shapes_any_1 target_func_values
    [Text "The result of function target_func has an invalid shape: ";
     FmtShape (tf_shape target_func_values);
     Text "."] ;;;
  idxs <- tf_argmax0 target_func_values ;;
  max_value_idx <- item0 idxs ;;
  slice_rows points max_value_idx (max_value_idx + 1).

End Discrete.

(** ** Search spaces *)

(** Modelled from the spec: the classes of [trieste/space.py], which the
    optimiser imports.  A discrete space is an ordered collection of points,
    a tensor of shape [N, D]; a box is a pair of vectors [lower] and [upper]
    of dimension [D]; further subclasses of [SearchSpace] may exist. *)
Inductive SearchSpace : Type :=
| DiscreteSearchSpace (points : tensor R)
| Box (lower upper : list R)
| OtherSearchSpace (class_name : string).

(** The bounds of a box: vectors of one dimension, [lower] below [upper]
    in every coordinate. *)
Definition strict_bounds (lower upper : list R) : Prop :=
  length lower = length upper /\
  forall i, (i < length lower)%nat -> (nth i lower 0 < nth i upper 0)%R.

(** ** The sigmoid bijector *)

Definition sigmoid (x : R) : R := (1 / (1 + exp (- x)))%R.

(** Modelled from the spec: the bijector [tfp.bijectors.Sigmoid(low, high)]
    of TensorFlow Probability, which is not among the sources; a sigmoid
    transform of the real line onto the open interval between the bounds.
    Forward is [low + (high - low) * sigmoid x]; inverse is the logit of
    [(y - low) / (high - low)], computed as [log u - log1p (- u)].  [ln] is
    total on [R]; the inverse is meant for points strictly inside. *)
Definition Sigmoid_forward (low high x : R) : R :=
  (low + (high - low) * sigmoid x)%R.

Definition Sigmoid_inverse (low high y : R) : R :=
  let u := ((y - low) / (high - low))%R in
  (ln u - ln (1 + - u))%R.

Definition imap {A B : Type} (f : nat -> A -> B) (xs : list A) : list B :=
  map (fun p => f (fst p) (snd p)) (combine (seq 0 (length xs)) xs).

Definition at_bounds (g : R -> R -> R -> R) (low high : list R) (i : nat) (v : R)
  : R :=
  g (nth i low 0%R) (nth i high 0%R) v.

(** An elementwise operation of vectors [low] and [high] of length [D] with
    a tensor [x], under TensorFlow's broadcasting: the last axis of [x] has
    size [D], or one of the two sizes is 1. *)
Definition broadcast_bounds (g : R -> R -> R -> R) (low high : list R)
  (x : tensor R) : result (tensor R) :=
  let D := length low in
  let m := last (shape x) 1%nat in
  if (m =? 1)%nat then
    Ok (Tensor (removelast (shape x) ++ [D])
          (flat_map (fun v => map (fun i => at_bounds g low high i v) (seq 0 D))
                    (data x)))
  else if ((D =? 1) || (m =? D))%nat then
    Ok (Tensor (shape x)
          (imap (fun j v => at_bounds g low high (j mod D) v) (data x)))
  else
    Raise (InvalidArgumentError
             [Text "Incompatible shapes: "; FmtShape (tf_shape x);
              Text " vs. "; FmtShape [wrap32 (Z.of_nat D)]]).

Record Sigmoid : Type := { low : list R; high : list R }.

Definition forward (b : Sigmoid) (x : tensor R) : result (tensor R) :=
  broadcast_bounds Sigmoid_forward (low b) (high b) x.

Definition inverse (b : Sigmoid) (y : tensor R) : result (tensor R) :=
  broadcast_bounds Sigmoid_inverse (low b) (high b) y.

(** [-t], elementwise. *)
Definition tf_neg (t : tensor R) : tensor R :=
  Tensor (shape t) (map Ropp (data t)).

(** [tf.squeeze(t, axis=-1)]: drops the last axis, which must have size 1. *)
Definition tf_squeeze_last {T : Type} (t : tensor T) : result (tensor T) :=
  match shape t with
  | [] => Raise (InvalidArgumentError
                   [Text "Tried to squeeze dim index -1 for tensor with 0 dimensions"])
  | _ :: _ =>
      if (last (shape t) 0 =? 1)%nat
      then Ok (Tensor (removelast (shape t)) (data t))
      else Raise (InvalidArgumentError
                    [Text "Can not squeeze dim[-1], expected a dimension of 1, got ";
                     FmtShape [wrap32 (Z.of_nat (last (shape t) 0%nat))]])
  end.

(** ** The box maximiser and the dispatcher *)

(** The fields of the result of [tfp.optimizer.lbfgs_minimize] that the
    optimiser reads. *)
Record lbfgs_result : Type := {
  converged : bool;
  position : tensor R
}.

Definition non_convergence_warning : string :=
  "L-BFGS optimization produced result, but failed to converge.".

Section Optimizer.

(** [Box.sample], the low-discrepancy sampler of [trieste/space.py]. *)
Variable sample : list R -> list R -> Z -> result (tensor R).

(** Reverse-mode differentiation, [tfp.math.value_and_gradient]. *)
Variable gradient : (tensor R -> result (tensor R)) -> tensor R -> tensor R.

(** [tfp.optimizer.lbfgs_minimize]. *)
Variable lbfgs_minimize :
  (tensor R -> result (tensor R * tensor R)) -> tensor R -> result lbfgs_result.

(** Modelled from the spec: [Box.discretize] of [trieste/space.py], a
    discrete sub-space of [num_samples] sampled points. *)
Definition discretize (lower upper : list R) (num_samples : Z)
  : result SearchSpace :=
  pts <- sample lower upper num_samples ;;
  Ok (DiscreteSearchSpace pts).

(** [tf.shape(space.lower)[-1]], an int32. *)
Definition last_dim (lower : list R) : Z := wrap32 (Z.of_nat (length lower)).

(** [tf.minimum(2000, 500 * tf.shape(space.lower)[-1])], in int32. *)
Definition num_trial_points (lower : list R) : Z :=
  Z.min 2000 (wrap32 (500 * last_dim lower)).

Definition value_and_gradient (f : tensor R -> result (tensor R)) (x : tensor R)
  : result (tensor R * tensor R) :=
  v <- f x ;;
  Ok (v, gradient f x).

Definition _objective (bijector : Sigmoid) (target_func : tensor R -> tensor R)
  (x : tensor R) : result (tensor R) :=
  y <- forward bijector x ;;
  tf_squeeze_last (tf_neg (target_func y)).

(** The maximiser registered for [Box].  It returns the point together with
    what it printed to the warning stream.  The trial space is a
    [DiscreteSearchSpace], so the nested call of [optimize] runs
    [_discrete_space]. *)
Definition _box (lower upper : list R) (target_func : tensor R -> tensor R)
  : result (tensor R * list string) :=
  trial_search_space <- discretize lower upper (num_trial_points lower) ;;
  initial_point <-
    match trial_search_space with
    | DiscreteSearchSpace points => _discrete_space points target_func
    | _ => Raise (ValueError [Text "discretize returned no discrete space"])
    end ;;
  let bijector := {| low := lower; high := upper |} in
  (* [tf.identity] copies the tensor; the copy has the same value *)
  x0 <- inverse bijector initial_point ;;
  lbfgs_result <-
    lbfgs_minimize (value_and_gradient (_objective bijector target_func)) x0 ;;
  let printed :=
    if negb (converged lbfgs_result) then [non_convergence_warning] else [] in
  y <- forward bijector (position lbfgs_result) ;;
  Ok (y, printed).

(** The dispatcher.  The body of the generic function is a docstring only,
    so for a class without a registered maximiser the call returns [None]. *)
Definition optimize (space : SearchSpace) (target_func : tensor R -> tensor R)
  : result (option (tensor R) * list string) :=
  match space with
  | DiscreteSearchSpace points =>
      p <- _discrete_space points target_func ;;
      Ok (Some p, [])
  | Box lower upper =>
      r <- _box lower upper target_func ;;
      Ok (Some (fst r), snd r)
  | OtherSearchSpace _ => Ok (None, [])
  end.

End Optimizer.

(** ** The forward transform in float64 *)

Module Float64.

Import PrimFloat.
Local Open Scope float_scope.

(** The exponential on binary64 numbers.  It belongs to the platform and is
    not among the sources; it is computed here the usual way: the argument
    is reduced by the nearest multiple of log 2, the exponential of the
    rest is a polynomial, and the result is scaled by the power of two.  It
    agrees with the exponential of the C library to the last digit or
    nearly so. *)
Definition inv_ln2 : float := 0x1.71547652b82fep+0.
Definition ln2_hi : float := 0x1.62e42fee00000p-1.
Definition ln2_lo : float := 0x1.a39ef35793c76p-33.
Definition magic : float := 0x1.8p+52.

Definition nearest_integer (x : float) : float := (x + magic) - magic.

Definition exp_poly (r : float) : float :=
  fold_left (fun acc d => 1 + (r / d) * acc)
    [14; 13; 12; 11; 10; 9; 8; 7; 6; 5; 4; 3; 2; 1] 1.

Fixpoint scale2 (fuel : nat) (y k : float) : float :=
  match fuel with
  | O => y
  | S fuel' =>
      if 0 <? k then scale2 fuel' (y * 2) (k - 1)
      else if k <? 0 then scale2 fuel' (y / 2) (k + 1)
      else y
  end.

Definition exp (x : float) : float :=
  if 710 <? x then infinity
  else if x <? -746 then 0
  else
    let k := nearest_integer (x * inv_ln2) in
    let r := (x - k * ln2_hi) - k * ln2_lo in
    scale2 1100 (exp_poly r) k.

(** [tf.math.sigmoid] on float64, [1 / (1 + exp (- x))]. *)
Definition sigmoid (x : float) : float := 1 / (1 + exp (- x)).

(** Modelled from the spec: the forward transform of
    [tfp.bijectors.Sigmoid(low, high)], as [Sigmoid_forward] above, with
    every operation rounded to binary64. *)
Definition Sigmoid_forward (low high x : float) : float :=
  low + (high - low) * sigmoid x.

Definition at_bounds (g : float -> float -> float -> float)
  (low high : list float) (i : nat) (v : float) : float :=
  g (nth i low 0) (nth i high 0) v.

(** Broadcasting against the bounds, as [broadcast_bounds] above. *)
Definition broadcast_bounds (g : float -> float -> float -> float)
  (low high : list float) (x : tensor float) : result (tensor float) :=
  let D := length low in
  let m := last (shape x) 1%nat in
  if (m =? 1)%nat then
    Ok (Tensor (removelast (shape x) ++ [D])
          (flat_map (fun v => map (fun i => at_bounds g low high i v) (seq 0 D))
                    (data x)))
  else if ((D =? 1) || (m =? D))%nat then
    Ok (Tensor (shape x)
          (imap (fun j v => at_bounds g low high (j mod D)%nat v) (data x)))
  else
    Raise (InvalidArgumentError
             [Text "Incompatible shapes: "; FmtShape (tf_shape x);
              Text " vs. "; FmtShape [wrap32 (Z.of_nat D)]]).

Record Sigmoid : Type := { low : list float; high : list float }.

Definition forward (b : Sigmoid) (x : tensor float) : result (tensor float) :=
  broadcast_bounds Sigmoid_forward (low b) (high b) x.


End Float64.

(** ** What the optimiser expects of its collaborators *)

(** Modelled from the spec: [sample(n)] of a box yields an ordered sequence
    of [n] points of the dimension of the box. *)
Definition sample_contract (sample : list R -> list R -> Z -> result (tensor R))
  (lower upper : list R) : Prop :=
  forall n, (0 <= n)%Z ->
    exists pts,
      sample lower upper n = Ok pts /\
      shape pts = [Z.to_nat n; length lower] /\
      well_formed pts.

(** An acquisition function maps a batch of shape [..., D] to scores of
    shape [..., 1]. *)
Definition score_contract (target_func : tensor R -> tensor R) (D : nat) : Prop :=
  forall x pre,
    shape x = pre ++ [D] -> well_formed x ->
    shape (target_func x) = pre ++ [1%nat] /\ well_formed (target_func x).

(** The sampler and the local search return tensors that hold as many
    elements as their shape says. *)
Definition sample_well_formed (sample : list R -> list R -> Z -> result (tensor R))
  (lower upper : list R) : Prop :=
  forall n pts, sample lower upper n = Ok pts -> well_formed pts.

Definition lbfgs_well_formed
  (lbfgs_minimize :
     (tensor R -> result (tensor R * tensor R)) -> tensor R -> result lbfgs_result)
  : Prop :=
  forall vg x0 r,
    well_formed x0 -> lbfgs_minimize vg x0 = Ok r -> well_formed (position r).

(** The local search returns, with a position of the shape of its starting
    point, whenever the objective can be evaluated at every such
    position. *)
Definition lbfgs_contract
  (lbfgs_minimize :
     (tensor R -> result (tensor R * tensor R)) -> tensor R -> result lbfgs_result)
  : Prop :=
  forall vg x0,
    well_formed x0 ->
    (forall x, shape x = shape x0 -> well_formed x -> exists v, vg x = Ok v) ->
    exists r,
      lbfgs_minimize vg x0 = Ok r /\
      shape (position r) = shape x0 /\
      well_formed (position r).

(** ** Small collaborators to run the optimiser with *)

(** A sampler that repeats the centre of the box. *)
Definition sample_mid (lower upper : list R) (n : Z) : result (tensor R) :=
  if (n <? 0)%Z
  then Raise (InvalidArgumentError [Text "num_samples must be non-negative"])
  else Ok (Tensor [Z.to_nat n; length lower]
             (concat (repeat (map (fun p => ((fst p + snd p) / 2)%R)
                                  (combine lower upper))
                             (Z.to_nat n)))).

Definition gradient_zero (f : tensor R -> result (tensor R)) (x : tensor R)
  : tensor R :=
  Tensor (shape x) (map (fun _ => 0%R) (data x)).

(** A local search that evaluates the objective once and stays at its
    starting point, reporting [c] as convergence. *)
Definition lbfgs_stay (c : bool)
  (vg : tensor R -> result (tensor R * tensor R)) (x0 : tensor R)
  : result lbfgs_result :=
  bind (vg x0) (fun _ => Ok {| converged := c; position := x0 |}).

(** ** Building the deep inverse-Wishart model *)

Module Architectures.

(** The [torch.nn] and [bayesfunc] modules the builder assembles, with the
    arguments it passes; [None] stands for an argument left at the default
    of the library. *)
#[warnings="-register-all"]
Inductive module : Type :=
| FeaturesToKernelARD (inducing_batch : Z) (in_features : nat)
| SqExpKernelGram (trainable_noise lengthscale : option bool)
| IWLayer (inducing_batch : Z)
| GIGP (out_features : nat) (inducing_targets : option (tensor R))
       (inducing_batch : Z)
| InducingWrapper (net : module) (inducing_batch : Z) (inducing_data : tensor R)
| ConstantLayer
| NormalLearnedScale (log_scale lr_scale : R)
| Sequential (layers : list module).

(** What a call does to the world: draws from the samplers and
    constructions of modules, in order. *)
Inductive event : Type :=
| SampleSobol (num_samples : Z)
| Randn (dims : list Z)
| Choice (population size : Z)
| Construct (m : module).

Definition trace := list event.

(** Computations that extend the trace and may raise. *)
Definition M (A : Type) : Type := trace -> trace * result A.

Definition ret {A : Type} (a : A) : M A := fun tr => (tr, Ok a).

Definition raise {A : Type} (e : exn) : M A := fun tr => (tr, Raise e).

Definition mbind {A B : Type} (m : M A) (k : A -> M B) : M B :=
  fun tr =>
    match m tr with
    | (tr', Ok a) => k a tr'
    | (tr', Raise e) => (tr', Raise e)
    end.

Definition lift {A : Type} (r : result A) : M A := fun tr => (tr, r).

Notation "x <~ m ;; k" := (mbind m (fun x => k))
  (at level 61, m at next level, right associativity).
Notation "m ~;; k" := (mbind m (fun _ => k))
  (at level 61, right associativity).

Definition construct (m : module) : M module :=
  fun tr => (tr ++ [Construct m], Ok m).

Fixpoint mapM {A B : Type} (f : A -> M B) (xs : list A) : M (list B) :=
  match xs with
  | [] => ret []
  | x :: xs' => y <~ f x ;; ys <~ mapM f xs' ;; ret (y :: ys)
  end.

(** [tf.debugging.assert_rank(t, 2, message=...)]. *)
Definition assert_rank_2 {T : Type} (t : tensor T) (msg : message) : result unit :=
  match shape t with
  | [_; _] => Ok tt
  | _ => Raise (ValueError msg)
  end.

(** [len(t)], the size of the first axis. *)
Definition len {T : Type} (t : tensor T) : result Z :=
  match shape t with
  | [] => Raise (ValueError [Text "len() of unsized object"])
  | n :: _ => Ok (Z.of_nat n)
  end.

(** [np.concatenate([a, b], 0)]. *)
Definition concatenate0 {T : Type} (a b : tensor T) : result (tensor T) :=
  match shape a, shape b with
  | n :: ra, m :: rb =>
      if list_eq_dec Nat.eq_dec ra rb
      then Ok (Tensor ((n + m)%nat :: ra) (data a ++ data b))
      else Raise (ValueError
                    [Text "all the input array dimensions except for the concatenation axis must match exactly"])
  | _, _ => Raise (ValueError [Text "zero-dimensional arrays cannot be concatenated"])
  end.

(** [a[idx]] for a list of row indices. *)
Definition take_rows {T : Type} (a : tensor T) (idx : list nat) : tensor T :=
  let k := numel (tl (shape a)) in
  Tensor (length idx :: tl (shape a)) (flat_map (fun i => row k i (data a)) idx).

(** [tf.shape(t)[i]] for [i] = 0 and [i] = -1. *)
Definition shape_first {T : Type} (t : tensor T) : result Z :=
  match tf_shape t with
  | [] => Raise (InvalidArgumentError [Text "slice index 0 of dimension 0 out of bounds."])
  | d :: _ => Ok d
  end.

Definition shape_last {T : Type} (t : tensor T) : result Z :=
  match tf_shape t with
  | [] => Raise (InvalidArgumentError [Text "slice index -1 of dimension 0 out of bounds."])
  | d :: ds => Ok (last ds d)
  end.

(** [math.log(math.sqrt(v))]; both raise on arguments outside their
    domain. *)
Definition log_sqrt (v : R) : result R :=
  if Rle_dec v 0 then Raise (ValueError [Text "math domain error"])
  else Ok (ln (sqrt v)).

Section Builder.

(** The samplers; what they return may depend on everything drawn before. *)
Variable sample_sobol : trace -> list R -> list R -> Z -> tensor R.
Variable randn : trace -> list Z -> tensor R.
Variable choice : trace -> Z -> Z -> list nat.

Definition draw_sobol (lower upper : list R) (n : Z) : M (tensor R) :=
  fun tr => (tr ++ [SampleSobol n], Ok (sample_sobol tr lower upper n)).

Definition draw_randn (dims : list Z) : M (tensor R) :=
  fun tr =>
    if existsb (fun d => (d <? 0)%Z) dims
    then (tr, Raise (ValueError [Text "negative dimensions are not allowed"]))
    else (tr ++ [Randn dims], Ok (randn tr dims)).

(** [np.random.choice(np.arange(n), k, replace=False)]. *)
Definition draw_choice (n k : Z) : M (list nat) :=
  fun tr =>
    if (k <? 0)%Z
    then (tr, Raise (ValueError [Text "negative dimensions are not allowed"]))
    else if (n <? k)%Z
    then (tr, Raise (ValueError
                       [Text "Cannot take a larger sample than population when 'replace=False'"]))
    else (tr ++ [Choice n k], Ok (choice tr n k)).

Definition dims_of (ds : list nat) : list Z := map Z.of_nat ds.

Definition layer (num_inducing : Z) : M module :=
  k <~ construct (SqExpKernelGram (Some true) None) ;;
  w <~ construct (IWLayer num_inducing) ;;
  construct (Sequential [k; w]).

Definition build_sqexp_deep_inv_wishart
  (query_points : tensor R) (num_layers num_inducing : Z)
  (observations : option (tensor R)) (likelihood_noise_variance : R)
  (search_space : option SearchSpace) (likelihood_lr_scale : R) : M module :=
  lift (assert_rank_2 query_points
          [Text "For this architecture, the rank of the input data must be 2."]) ~;;
  let num_data := Z.of_nat (nth 0 (shape query_points) 0%nat) in
  let input_dim := nth 1 (shape query_points) 0%nat in
  n <~ lift (len query_points) ;;
  query_points <~
    (if (num_inducing >? n)%Z then
       additional_points <~
         match search_space with
         | Some space =>
             match space with
             | Box lower upper => draw_sobol lower upper (num_inducing - n)
             | _ => raise (ValueError
                             [Text "Currently only `Box` instances are supported for `search_space`."])
             end
         | None =>
             draw_randn ((num_inducing - n)%Z :: dims_of (tl (shape query_points)))
         end ;;
       lift (concatenate0 query_points additional_points)
     else ret query_points) ;;
  observations <~
    match observations with
    | Some obs =>
        d <~ lift (shape_last obs) ;;
        if negb (d =? 1)%Z
        then raise (ValueError [Text "Output dim must be 1 for this model"])
        else
          d0 <~ lift (shape_first obs) ;;
          if negb (d0 =? num_data)%Z
          then raise (ValueError
                        [Text "Received a different number of query points and observations"])
          else
            m <~ lift (len obs) ;;
            if (num_inducing >? m)%Z then
              extra <~ draw_randn ((num_inducing - m)%Z :: dims_of (tl (shape obs))) ;;
              padded <~ lift (concatenate0 obs extra) ;;
              ret (Some padded)
            else ret (Some obs)
    | None => ret None
    end ;;
  total <~ lift (len query_points) ;;
  idx <~ draw_choice total num_inducing ;;
  let inducing_init := take_rows query_points idx in
  let inducing_targets := option_map (fun obs => take_rows obs idx) observations in
  l1 <~ construct (FeaturesToKernelARD num_inducing input_dim) ;;
  l2 <~ construct (SqExpKernelGram (Some true) (Some false)) ;;
  l3 <~ construct (IWLayer num_inducing) ;;
  hidden <~ mapM (fun _ => layer num_inducing)
                 (seq 0 (Z.to_nat (num_layers - 2))) ;;
  l4 <~ construct (SqExpKernelGram None None) ;;
  l5 <~ construct (GIGP 1 inducing_targets num_inducing) ;;
  net <~ construct (Sequential ([l1; l2; l3] ++ hidden ++ [l4; l5])) ;;
  net <~ construct (InducingWrapper net num_inducing inducing_init) ;;
  c <~ construct ConstantLayer ;;
  log_scale <~ lift (log_sqrt likelihood_noise_variance) ;;
  s <~ construct (NormalLearnedScale log_scale likelihood_lr_scale) ;;
  construct (Sequential [net; c; s]).

End Builder.

End Architectures.

(** The hidden block that [layer] builds, and what its construction
    records. *)
Definition hidden_block (k : Z) : Architectures.module :=
  Architectures.Sequential
    [Architectures.SqExpKernelGram (Some true) None; Architectures.IWLayer k].

Definition hidden_block_events (k : Z) : Architectures.trace :=
  [Architectures.Construct (Architectures.SqExpKernelGram (Some true) None);
   Architectures.Construct (Architectures.IWLayer k);
   Architectures.Construct (hidden_block k)].

(** ** Building the global-inducing deep Gaussian process *)

Module GI.

(** The modules [build_bayesfunc_gi_dgp] assembles.  A [reslayer] is given
    by the [layer] it wraps; its forward pass adds the input to the output
    of that layer. *)
#[warnings="-register-all"]
Inductive module : Type :=
| SqExpKernelFeaturesARD (inducing_batch : Z) (in_features : nat)
                         (trainable_noise : bool)
| GIGP (out_features : nat) (inducing_targets : option (tensor R))
       (inducing_batch : Z) (neuron_prec : option bool)
       (log_prec_init : option R)
| reslayer (layer : module)
| InducingWrapper (net : module) (inducing_batch : Z) (inducing_data : tensor R)
| ConstantLayer
| NormalLearnedScale (log_scale lr_scale : R)
| Sequential (layers : list module).

Inductive event : Type :=
| SampleSobol (num_samples : Z)
| Randn (dims : list Z)
| Choice (population size : Z)
| Construct (m : module).

Definition trace := list event.

Definition M (A : Type) : Type := trace -> trace * result A.

Definition ret {A : Type} (a : A) : M A := fun tr => (tr, Ok a).

Definition raise {A : Type} (e : exn) : M A := fun tr => (tr, Raise e).

Definition mbind {A B : Type} (m : M A) (k : A -> M B) : M B :=
  fun tr =>
    match m tr with
    | (tr', Ok a) => k a tr'
    | (tr', Raise e) => (tr', Raise e)
    end.

Definition lift {A : Type} (r : result A) : M A := fun tr => (tr, r).

Notation "x <~ m ;; k" := (mbind m (fun x => k))
  (at level 61, m at next level, right associativity).
Notation "m ~;; k" := (mbind m (fun _ => k))
  (at level 61, right associativity).

Definition construct (m : module) : M module :=
  fun tr => (tr ++ [Construct m], Ok m).

Fixpoint mapM {A B : Type} (f : A -> M B) (xs : list A) : M (list B) :=
  match xs with
  | [] => ret []
  | x :: xs' => y <~ f x ;; ys <~ mapM f xs' ;; ret (y :: ys)
  end.

Section Builder.

Variable sample_sobol : trace -> list R -> list R -> Z -> tensor R.
Variable randn : trace -> list Z -> tensor R.
Variable choice : trace -> Z -> Z -> list nat.

Definition draw_sobol (lower upper : list R) (n : Z) : M (tensor R) :=
  fun tr => (tr ++ [SampleSobol n], Ok (sample_sobol tr lower upper n)).

Definition draw_randn (dims : list Z) : M (tensor R) :=
  fun tr =>
    if existsb (fun d => (d <? 0)%Z) dims
    then (tr, Raise (ValueError [Text "negative dimensions are not allowed"]))
    else (tr ++ [Randn dims], Ok (randn tr dims)).

Definition draw_choice (n k : Z) : M (list nat) :=
  fun tr =>
    if (k <? 0)%Z
    then (tr, Raise (ValueError [Text "negative dimensions are not allowed"]))
    else if (n <? k)%Z
    then (tr, Raise (ValueError
                       [Text "Cannot take a larger sample than population when 'replace=False'"]))
    else (tr ++ [Choice n k], Ok (choice tr n k)).

(** [reslayer(num_inducing, width)]. *)
Definition new_reslayer (num_inducing : Z) (width : nat) : M module :=
  f <~ construct (SqExpKernelFeaturesARD num_inducing width true) ;;
  g <~ construct (GIGP width None num_inducing (Some true) None) ;;
  l <~ construct (Sequential [f; g]) ;;
  construct (reslayer l).

Definition build_bayesfunc_gi_dgp
  (query_points : tensor R) (num_layers num_inducing : Z)
  (observations : option (tensor R)) (likelihood_noise_variance : R)
  (search_space : option SearchSpace) (likelihood_lr_scale : R) : M module :=
  lift (Architectures.assert_rank_2 query_points
          [Text "For this architecture, the rank of the input data must be 2."]) ~;;
  let num_data := Z.of_nat (nth 0 (shape query_points) 0%nat) in
  let input_dim := nth 1 (shape query_points) 0%nat in
  n <~ lift (Architectures.len query_points) ;;
  query_points <~
    (if (num_inducing >? n)%Z then
       additional_points <~
         match search_space with
         | Some space =>
             match space with
             | Box lower upper => draw_sobol lower upper (num_inducing - n)
             | _ => raise (ValueError
                             [Text "Currently only `Box` instances are supported for `search_space`."])
             end
         | None =>
             draw_randn ((num_inducing - n)%Z
                           :: Architectures.dims_of (tl (shape query_points)))
         end ;;
       lift (Architectures.concatenate0 query_points additional_points)
     else ret query_points) ;;
  observations <~
    match observations with
    | Some obs =>
        d <~ lift (Architectures.shape_last obs) ;;
        if negb (d =? 1)%Z
        then raise (ValueError [Text "Output dim must be 1 for this model"])
        else
          d0 <~ lift (Architectures.shape_first obs) ;;
          if negb (d0 =? num_data)%Z
          then raise (ValueError
                        [Text "Received a different number of query points and observations"])
          else
            m <~ lift (Architectures.len obs) ;;
            if (num_inducing >? m)%Z then
              extra <~ draw_randn ((num_inducing - m)%Z
                                     :: Architectures.dims_of (tl (shape obs))) ;;
              padded <~ lift (Architectures.concatenate0 obs extra) ;;
              ret (Some padded)
            else ret (Some obs)
    | None => ret None
    end ;;
  total <~ lift (Architectures.len query_points) ;;
  idx <~ draw_choice total num_inducing ;;
  let inducing_init := Architectures.take_rows query_points idx in
  let inducing_targets :=
    option_map (fun obs => Architectures.take_rows obs idx) observations in
  res <~ mapM (fun _ => new_reslayer num_inducing input_dim)
              (seq 0 (Z.to_nat (num_layers - 1))) ;;
  f <~ construct (SqExpKernelFeaturesARD num_inducing input_dim false) ;;
  g <~ construct (GIGP 1 inducing_targets num_inducing None (Some 0%R)) ;;
  net <~ construct (Sequential (res ++ [f; g])) ;;
  net <~ construct (InducingWrapper net num_inducing inducing_init) ;;
  c <~ construct ConstantLayer ;;
  log_scale <~ lift (Architectures.log_sqrt likelihood_noise_variance) ;;
  s <~ construct (NormalLearnedScale log_scale likelihood_lr_scale) ;;
  construct (Sequential [net; c; s]).

End Builder.

(** The residual block that [new_reslayer] builds, and what its
    construction records. *)
Definition residual_block (k : Z) (width : nat) : module :=
  reslayer (Sequential [SqExpKernelFeaturesARD k width true;
                        GIGP width None k (Some true) None]).

Definition residual_block_events (k : Z) (width : nat) : trace :=
  [Construct (SqExpKernelFeaturesARD k width true);
   Construct (GIGP width None k (Some true) None);
   Construct (Sequential [SqExpKernelFeaturesARD k width true;
                          GIGP width None k (Some true) None]);
   Construct (residual_block k width)].

End GI.

(** ** Sampling from a deep Gaussian process *)

Module Utils.

(** A [Sample] is called on a tensor; a call may draw random numbers.  The
    state is the number of draws made so far, and what a draw returns
    depends on that number. *)
Definition Sample : Type := tensor R -> nat -> nat * result (tensor R).

(** The layers of a model: a [GPLayer] with its method [sample], a
    [LatentVariableLayer] with the sampler of its prior and its
    compositor, or a layer of another class, with its representation. *)
Inductive f_layer : Type :=
| GPLayer (sample : nat -> Sample)
| LatentVariableLayer (prior_sample : nat -> tensor R)
                      (compositor : tensor R -> tensor R -> result (tensor R))
| OtherLayer (repr : string).

Inductive outcome (A : Type) : Type :=
| Done (a : A)
| NotImplementedError (msg : message).

Arguments Done {A} a.
Arguments NotImplementedError {A} msg.

(** [tf.expand_dims(t, 0)]. *)
Definition tf_expand_dims0 {T : Type} (t : tensor T) : tensor T :=
  Tensor (1%nat :: shape t) (data t).

(** The elements of [tf.tile]: along every axis, from the first one, the
    blocks of that axis, each tiled along the remaining axes, are laid out
    as many times as the multiple says. *)
Fixpoint tile_data {T : Type} (dims multiples : list nat) (xs : list T) : list T :=
  match dims, multiples with
  | d :: ds, m :: ms =>
      concat (repeat (flat_map (fun i => tile_data ds ms (row (numel ds) i xs))
                               (seq 0 d))
                     m)
  | _, _ => xs
  end.

(** [tf.tile(t, multiples)]. *)
Definition tf_tile {T : Type} (t : tensor T) (multiples : list Z)
  : result (tensor T) :=
  if negb (length multiples =? length (shape t))%nat
  then Raise (InvalidArgumentError
                [Text "Expected multiples argument to be a vector of length ";
                 FmtShape [Z.of_nat (length (shape t))];
                 Text " but got length ";
                 FmtShape [Z.of_nat (length multiples)]])
  else if existsb (fun m => (m <? 0)%Z) multiples
  then Raise (InvalidArgumentError [Text "Expected multiples[i] >= 0"])
  else Ok (Tensor (map (fun p => (fst p * Z.to_nat (snd p))%nat)
                       (combine (shape t) multiples))
                  (tile_data (shape t) (map Z.to_nat multiples) (data t))).

(** [sample_consistent_lv_layer(layer)]: the returned [SampleLV], called
    on [X]. *)
Definition sample_consistent_lv_layer
  (prior_sample : nat -> tensor R)
  (compositor : tensor R -> tensor R -> result (tensor R)) : Sample :=
  fun X c =>
    let sample := prior_sample c in
    let batch_shape := removelast (tf_shape X) in
    let sample := Nat.iter (length batch_shape) tf_expand_dims0 sample in
    match tf_tile sample (batch_shape ++ [1%Z]) with
    | Ok sample => (S c, compositor X sample)
    | Raise e => (S c, Raise e)
    end.

(** [ChainedSample.__call__]: the draws applied one after the other. *)
Fixpoint chained (function_draws : list Sample) (X : tensor R) (c : nat)
  : nat * result (tensor R) :=
  match function_draws with
  | [] => (c, Ok X)
  | f :: fs =>
      match f X c with
      | (c', Ok Y) => chained fs Y c'
      | (c', Raise e) => (c', Raise e)
      end
  end.

(** The loop of [sample_dgp] over the layers that remain, with the draws
    collected so far. *)
Fixpoint collect_draws (f_layers : list f_layer) (function_draws : list Sample)
  (c : nat) : nat * outcome (list Sample) :=
  match f_layers with
  | [] => (c, Done function_draws)
  | layer :: rest =>
      match layer with
      | GPLayer sample =>
          collect_draws rest (function_draws ++ [sample c]) (S c)
      | LatentVariableLayer prior_sample compositor =>
          collect_draws rest
            (function_draws ++ [sample_consistent_lv_layer prior_sample compositor])
            c
      | OtherLayer repr =>
          (c, NotImplementedError [Text "Sampling not implemented for "; Text repr])
      end
  end.

Definition sample_dgp (f_layers : list f_layer) (c : nat)
  : nat * outcome Sample :=
  match collect_draws f_layers [] c with
  | (c', Done function_draws) => (c', Done (chained function_draws))
  | (c', NotImplementedError msg) => (c', NotImplementedError msg)
  end.

(** The layers [sample_dgp] can sample from. *)
Definition supported (layer : f_layer) : bool :=
  match layer with
  | OtherLayer _ => false
  | _ => true
  end.

Definition is_gp (layer : f_layer) : bool :=
  match layer with
  | GPLayer _ => true
  | _ => false
  end.

End Utils.

(** * Properties *)

(** ** Lists and tensors *)

Lemma column_shift {T : Type} (xs pre : list T) :
  flat_map (fun i => match nth_error (pre ++ xs) i with
                     | Some x => [x]
                     | None => []
                     end) (seq (length pre) (length xs)) = xs.
Proof.
  revert pre. induction xs as [| x xs IH]; intros pre; simpl; [reflexivity |].
  rewrite nth_error_app2 by lia. rewrite Nat.sub_diag. simpl. f_equal.
  specialize (IH (pre ++ [x])).
  rewrite <- app_assoc, length_app in IH. simpl in IH.
  rewrite Nat.add_1_r in IH. exact IH.
Qed.

Lemma column_one {T : Type} (m : nat) (xs : list T) :
  length xs = m -> column m 1 0 xs = xs.
Proof.
  intros <-. unfold column.
  transitivity (flat_map (fun i => match nth_error ([] ++ xs) i with
                                   | Some x => [x]
                                   | None => []
                                   end) (seq (length (@nil T)) (length xs))).
  - apply flat_map_ext. intros i. now rewrite Nat.mul_1_r, Nat.add_0_r.
  - apply column_shift.
Qed.

Lemma row_length {T : Type} (k i n : nat) (xs : list T) :
  length xs = (n * k)%nat -> (i < n)%nat -> length (row k i xs) = k.
Proof.
  intros Hlen Hi. unfold row. rewrite length_firstn, length_skipn, Hlen. nia.
Qed.

(** ** The scan for the largest element *)

Section ArgmaxFacts.

Context {T : Type} `{Dtype T}.

Lemma lt_irrefl (x : T) : lt x x = false.
Proof.
  destruct (lt x x) eqn:E; [| reflexivity].
  now rewrite (lt_asym _ _ E) in E.
Qed.

(** The scan over [pre ++ xs], having seen [pre] with the best element at
    [bi], ends at an element no other exceeds and that strictly exceeds
    every element before it. *)
Lemma argmax_from_spec (xs : list T) :
  forall (pre : list T) (best : T) (bi : nat),
    nth_error pre bi = Some best ->
    (forall j y, nth_error pre j = Some y -> lt best y = false) ->
    (forall j y, (j < bi)%nat -> nth_error pre j = Some y -> lt y best = true) ->
    let r := argmax_from bi best (length pre) xs in
    exists b,
      nth_error (pre ++ xs) r = Some b /\
      (forall j y, nth_error (pre ++ xs) j = Some y -> lt b y = false) /\
      (forall j y, (j < r)%nat -> nth_error (pre ++ xs) j = Some y ->
                   lt y b = true).
Proof.
  induction xs as [| x xs IH]; intros pre best bi Hbest Hmax Hfirst; simpl.
  - rewrite app_nil_r. eauto.
  - assert (Hbi : (bi < length pre)%nat)
      by (apply nth_error_Some; congruence).
    assert (Hsplit : pre ++ x :: xs = (pre ++ [x]) ++ xs)
      by now rewrite <- app_assoc.
    assert (Hlen : length (pre ++ [x]) = S (length pre))
      by (rewrite length_app; simpl; lia).
    rewrite Hsplit, <- Hlen.
    destruct (lt best x) eqn:E.
    + (* a strictly larger element: it becomes the best *)
      assert (Hbelow : forall j y, nth_error pre j = Some y -> lt y x = true).
      { intros j y Hy.
        destruct (lt_negtrans best y x E) as [C | C]; [| exact C].
        now rewrite (Hmax j y Hy) in C. }
      apply IH.
      * rewrite nth_error_app2 by lia. now rewrite Nat.sub_diag.
      * intros j y Hy.
        destruct (Nat.lt_ge_cases j (length pre)) as [Hj | Hj].
        -- rewrite nth_error_app1 in Hy by exact Hj.
           apply lt_asym. eapply Hbelow; eauto.
        -- rewrite nth_error_app2 in Hy by exact Hj.
           destruct (j - length pre)%nat as [| d]; simpl in Hy.
           ++ injection Hy as <-. apply lt_irrefl.
           ++ now destruct d.
      * intros j y Hj Hy.
        rewrite nth_error_app1 in Hy by exact Hj. eapply Hbelow; eauto.
    + (* the best element stays *)
      apply IH.
      * rewrite nth_error_app1 by exact Hbi. exact Hbest.
      * intros j y Hy.
        destruct (Nat.lt_ge_cases j (length pre)) as [Hj | Hj].
        -- rewrite nth_error_app1 in Hy by exact Hj. eauto.
        -- rewrite nth_error_app2 in Hy by exact Hj.
           destruct (j - length pre)%nat as [| d]; simpl in Hy.
           ++ now injection Hy as <-.
           ++ now destruct d.
      * intros j y Hj Hy.
        rewrite nth_error_app1 in Hy by lia. eauto.
Qed.

Lemma argmax_list_spec (xs : list T) :
  xs <> [] ->
  exists b,
    nth_error xs (argmax_list xs) = Some b /\
    (forall j y, nth_error xs j = Some y -> lt b y = false) /\
    (forall j y, (j < argmax_list xs)%nat -> nth_error xs j = Some y ->
                 lt y b = true).
Proof.
  destruct xs as [| x xs]; [congruence | intros _].
  apply (argmax_from_spec xs [x] x 0%nat).
  - reflexivity.
  - intros [| [| j]] y Hy; simpl in Hy; try discriminate.
    injection Hy as <-. apply lt_irrefl.
  - intros j y Hj. lia.
Qed.

(** The discrete maximiser on [N >= 1] points scored with shape [N, 1]:
    it returns row [i] of the points for the first index [i] whose score no
    other score exceeds. *)
Lemma discrete_space_spec (points : tensor T) (target_func : tensor T -> tensor T)
  (N D : nat) :
  shape points = [N; D] ->
  (1 <= N)%nat ->
  shape (target_func points) = [N; 1%nat] ->
  well_formed (target_func points) ->
  exists i b,
    (i < N)%nat /\
    nth_error (data (target_func points)) i = Some b /\
    _discrete_space points target_func
      = Ok (Tensor [1%nat; D] (row D i (data points))) /\
    (forall j y, nth_error (data (target_func points)) j = Some y ->
                 lt b y = false) /\
    (forall j y, (j < i)%nat ->
                 nth_error (data (target_func points)) j = Some y ->
                 lt y b = true).
Proof.
  intros Hp HN Hs Hwf.
  unfold well_formed in Hwf. rewrite Hs in Hwf. simpl in Hwf.
  rewrite Nat.mul_1_r in Hwf.
  set (scores := data (target_func points)) in *.
  assert (Hne : scores <> []) by (destruct scores; simpl in Hwf; [lia | easy]).
  destruct (argmax_list_spec scores Hne) as (b & Hb & Hmax & Hfirst).
  set (i := argmax_list scores) in *.
  assert (Hi : (i < N)%nat)
    by (rewrite <- Hwf; apply nth_error_Some; congruence).
  exists i, b. repeat split; try assumption.
  unfold _discrete_space, assert_shapes_any_1, tf_argmax0.
  rewrite Hs. simpl.
  destruct (N =? 0)%nat eqn:E; [apply Nat.eqb_eq in E; lia |].
  simpl. fold scores. rewrite (column_one N scores Hwf). fold i.
  unfold item0, slice_rows. simpl. rewrite Hp.
  unfold clamp_index.
  destruct (Z.of_nat i <? 0)%Z eqn:E1; [apply Z.ltb_lt in E1; lia |].
  destruct (Z.of_nat i + 1 <? 0)%Z eqn:E2; [apply Z.ltb_lt in E2; lia |].
  rewrite !Z.min_l by lia.
  replace (Z.of_nat i + 1 - Z.of_nat i)%Z with 1%Z by lia.
  rewrite Nat2Z.id. simpl. unfold row.
  now rewrite !Nat.mul_1_r, Nat.add_0_r.
Qed.

End ArgmaxFacts.

(** ** The sigmoid bijector *)

Lemma sigmoid_range (x : R) : (0 < sigmoid x < 1)%R.
Proof.
  unfold sigmoid. pose proof (exp_pos (- x)) as He.
  assert (Hpos : (0 < / (1 + exp (- x)))%R) by (apply Rinv_0_lt_compat; lra).
  assert (Hinv : (/ (1 + exp (- x)) * (1 + exp (- x)) = 1)%R)
    by (apply Rinv_l; lra).
  unfold Rdiv. rewrite Rmult_1_l. split; [exact Hpos | nra].
Qed.

Lemma Sigmoid_forward_open (lo hi x : R) :
  (lo < hi)%R -> (lo < Sigmoid_forward lo hi x < hi)%R.
Proof.
  intros Hlh. unfold Sigmoid_forward.
  pose proof (sigmoid_range x) as [H0 H1]. split; nra.
Qed.

Lemma sigmoid_logit (u : R) :
  (0 < u < 1)%R -> sigmoid (ln u - ln (1 + - u)) = u.
Proof.
  intros [H0 H1]. unfold sigmoid.
  replace (- (ln u - ln (1 + - u)))%R with (ln (1 + - u) + - ln u)%R by lra.
  rewrite exp_plus, exp_Ropp, !exp_ln by lra.
  field. lra.
Qed.

Lemma Sigmoid_forward_inverse (lo hi y : R) :
  (lo < y < hi)%R -> Sigmoid_forward lo hi (Sigmoid_inverse lo hi y) = y.
Proof.
  intros [Hl Hh]. unfold Sigmoid_forward, Sigmoid_inverse. cbv zeta.
  assert (Hd : (0 < hi - lo)%R) by lra.
  assert (Hu : (0 < (y - lo) / (hi - lo) < 1)%R).
  { split.
    - apply Rdiv_lt_0_compat; lra.
    - apply Rmult_lt_reg_r with (hi - lo)%R; [exact Hd |].
      unfold Rdiv. rewrite Rmult_assoc, Rinv_l by lra. lra. }
  rewrite (sigmoid_logit _ Hu). field. lra.
Qed.

(** ** Broadcasting against the bounds *)

Lemma imap_from_nth {A B : Type} (f : nat -> A -> B) (xs : list A) (dA : A) (dB : B) :
  forall s j, (j < length xs)%nat ->
    nth j (map (fun p => f (fst p) (snd p)) (combine (seq s (length xs)) xs)) dB
    = f (s + j)%nat (nth j xs dA).
Proof.
  induction xs as [| x xs IH]; intros s j Hj; simpl in *; [lia |].
  destruct j as [| j].
  - now rewrite Nat.add_0_r.
  - rewrite IH by lia. f_equal. lia.
Qed.

Lemma imap_nth {A B : Type} (f : nat -> A -> B) (xs : list A) (dA : A) (dB : B) (j : nat) :
  (j < length xs)%nat -> nth j (imap f xs) dB = f j (nth j xs dA).
Proof. intros Hj. unfold imap. now rewrite (imap_from_nth f xs dA dB 0 j Hj). Qed.

Lemma imap_length {A B : Type} (f : nat -> A -> B) (xs : list A) :
  length (imap f xs) = length xs.
Proof.
  unfold imap. rewrite length_map, length_combine, length_seq. lia.
Qed.

(** Across the blocks of a broadcast last axis: element [j] comes from
    coordinate [j mod D]. *)
Lemma flat_map_blocks (P : nat -> R -> Prop) (h : nat -> R -> R) (D : nat) (xs : list R) :
  (forall i v, (i < D)%nat -> P i (h i v)) ->
  forall j,
    (j < length (flat_map (fun v => map (fun i => h i v) (seq 0 D)) xs))%nat ->
    P (j mod D)%nat
      (nth j (flat_map (fun v => map (fun i => h i v) (seq 0 D)) xs) 0%R).
Proof.
  intros HP. induction xs as [| x xs IH]; intros j Hj; simpl in *; [lia |].
  assert (Hblock : length (map (fun i => h i x) (seq 0 D)) = D)
    by now rewrite length_map, length_seq.
  rewrite length_app, Hblock in Hj.
  destruct (Nat.lt_ge_cases j D) as [Hlt | Hge].
  - rewrite app_nth1 by lia.
    rewrite Nat.mod_small by exact Hlt.
    rewrite (nth_indep _ 0%R (h 0%nat x)) by lia.
    rewrite (map_nth (fun i => h i x) (seq 0 D) 0%nat j).
    rewrite seq_nth by exact Hlt. simpl. now apply HP.
  - rewrite app_nth2 by lia. rewrite Hblock.
    replace (j mod D)%nat with ((j - D) mod D)%nat.
    + apply IH. lia.
    + replace j with ((j - D) + 1 * D)%nat at 2 by lia.
      now rewrite Nat.Div0.mod_add.
Qed.

Lemma numel_last_zero (dims : list nat) (d : nat) :
  dims <> [] -> last dims d = 0%nat -> numel dims = 0%nat.
Proof.
  induction dims as [| a [| b dims] IH]; intros Hne Hl; [easy | |].
  - simpl in *. subst. reflexivity.
  - change (numel (a :: b :: dims)) with (a * numel (b :: dims))%nat.
    rewrite IH; [lia | easy | exact Hl].
Qed.

(** Every element of a broadcast result is the operation applied at the
    bounds of its own coordinate. *)
Lemma broadcast_bounds_elements (P : nat -> R -> Prop) (g : R -> R -> R -> R)
  (lo hi : list R) (x y : tensor R) :
  (forall i v, (i < length lo)%nat -> P i (at_bounds g lo hi i v)) ->
  well_formed x ->
  broadcast_bounds g lo hi x = Ok y ->
  forall j, (j < length (data y))%nat ->
    P (j mod length lo)%nat (nth j (data y) 0%R).
Proof.
  intros HP Hwf Hy. unfold broadcast_bounds in Hy.
  destruct (last (shape x) 1 =? 1)%nat eqn:E1.
  - injection Hy as <-. simpl. now apply flat_map_blocks.
  - destruct ((length lo =? 1) || (last (shape x) 1 =? length lo))%nat eqn:E2;
      [| discriminate].
    injection Hy as <-. simpl. intros j Hj. rewrite imap_length in Hj.
    rewrite (imap_nth _ (data x) 0%R 0%R j Hj).
    destruct (Nat.eq_dec (length lo) 0) as [HD | HD].
    + (* an empty last axis holds no element *)
      exfalso. rewrite HD in E2. simpl in E2. apply Nat.eqb_eq in E2.
      unfold well_formed in Hwf.
      rewrite (numel_last_zero (shape x) 1%nat) in Hwf; [lia | | exact E2].
      intros Hnil. rewrite Hnil in E1. discriminate.
    + apply HP. apply Nat.mod_upper_bound. exact HD.
Qed.

(** ** The discrete maximiser and the dispatcher *)

Lemma Rltb_true (x y : R) : Rltb x y = true <-> (x < y)%R.
Proof. unfold Rltb. destruct (Rlt_dec x y); split; intros; easy. Qed.

Lemma Rltb_false (x y : R) : Rltb x y = false <-> (y <= x)%R.
Proof.
  unfold Rltb. destruct (Rlt_dec x y); split; intros; try easy; lra.
Qed.

Lemma bind_Ok {A B : Type} (m : result A) (k : A -> result B) (b : B) :
  bind m k = Ok b -> exists a, m = Ok a /\ k a = Ok b.
Proof. destruct m as [a | e]; simpl; intros E; [eauto | discriminate]. Qed.

Section OptimizerFacts.

Variable sample : list R -> list R -> Z -> result (tensor R).
Variable gradient : (tensor R -> result (tensor R)) -> tensor R -> tensor R.
Variable lbfgs_minimize :
  (tensor R -> result (tensor R * tensor R)) -> tensor R -> result lbfgs_result.

(** C1.  On a discrete space of [N >= 1] points of dimension [D], with
    scores of shape [N, 1], [optimize] returns row [i] of the point set for
    some index [i < N], as a tensor of shape [1, D]; no point scores more
    than point [i], and every point before [i] scores strictly less, so [i]
    is the lowest index that attains the maximum. *)
Theorem optimize_discrete_argmax
  (points : tensor R) (target_func : tensor R -> tensor R) (N D : nat) :
  shape points = [N; D] ->
  well_formed points ->
  (1 <= N)%nat ->
  shape (target_func points) = [N; 1%nat] ->
  well_formed (target_func points) ->
  let score := fun j => nth j (data (target_func points)) 0%R in
  exists i,
    (i < N)%nat /\
    optimize sample gradient lbfgs_minimize
      (DiscreteSearchSpace points) target_func
      = Ok (Some (Tensor [1%nat; D] (row D i (data points))), []) /\
    length (row D i (data points)) = D /\
    (forall j, (j < N)%nat -> (score j <= score i)%R) /\
    (forall j, (j < i)%nat -> (score j < score i)%R).
Proof.
  intros Hp Hwfp HN Hs Hwf score.
  destruct (discrete_space_spec points target_func N D Hp HN Hs Hwf)
    as (i & b & Hi & Hb & Hrun & Hmax & Hfirst).
  assert (Hlen : length (data (target_func points)) = N).
  { unfold well_formed in Hwf. rewrite Hs in Hwf. simpl in Hwf. lia. }
  assert (Hscore : forall j, (j < N)%nat ->
            nth_error (data (target_func points)) j = Some (score j)).
  { intros j Hj. apply nth_error_nth'. lia. }
  assert (Hbi : b = score i).
  { rewrite (Hscore i Hi) in Hb. congruence. }
  subst b. exists i. repeat split.
  - exact Hi.
  - simpl. now rewrite Hrun.
  - apply row_length with (n := N); [| exact Hi].
    unfold well_formed in Hwfp. rewrite Hp in Hwfp. simpl in Hwfp. lia.
  - intros j Hj. apply Rltb_false. exact (Hmax j _ (Hscore j Hj)).
  - intros j Hj. apply Rltb_true. apply (Hfirst j _ Hj). apply Hscore. lia.
Qed.

(** C5, as the code has it.  For a search space of a class with no
    registered maximiser, [optimize] runs the generic function, whose body
    is empty: it returns [None], prints nothing and raises nothing. *)
Theorem optimize_unregistered_returns_none
  (class_name : string) (target_func : tensor R -> tensor R) :
  optimize sample gradient lbfgs_minimize
    (OtherSearchSpace class_name) target_func = Ok (None, []).
Proof. reflexivity. Qed.

End OptimizerFacts.

(** C3, as the code has it.  The discrete maximiser raises its
    shape-contract error, whose message holds the shape of the scores,
    exactly when the scores do not have rank 2 with a last dimension of 1;
    the first dimension is not compared with the number of points. *)
Theorem discrete_shape_contract {T : Type} `{Dtype T}
  (points : tensor T) (target_func : tensor T -> tensor T) :
  _discrete_space points target_func
    = Raise (ValueError
               [Text "The result of function target_func has an invalid shape: ";
                FmtShape (tf_shape (target_func points));
                Text "."])
  <-> (forall n, shape (target_func points) <> [n; 1%nat]).
Proof.
  unfold _discrete_space, assert_shapes_any_1.
  destruct (shape (target_func points)) as [| n [| [| [| k]] [| c rest]]] eqn:Hs;
    simpl; try (split; [intros _ ? ?; discriminate | reflexivity]).
  split; [| intros Hn; now destruct (Hn n)].
  intros Hrun. exfalso.
  unfold tf_argmax0 in Hrun. rewrite Hs in Hrun.
  destruct (n =? 0)%nat; simpl in Hrun; [discriminate |].
  unfold slice_rows in Hrun. destruct (shape points); discriminate.
Qed.

(** C3, as stated, fails: two points, scores of shape [1, 1].  The shape is
    not [2, 1], yet no error is raised and the first point is selected. *)
Lemma discrete_shape_contract_counterexample :
  let points := Tensor [2; 1]%nat [5%Z; 7%Z] in
  let target_func := fun _ : tensor Z => Tensor [1; 1]%nat [0%Z] in
  shape (target_func points) <> [2; 1]%nat /\
  _discrete_space points target_func = Ok (Tensor [1; 1]%nat [5%Z]).
Proof. split; [discriminate | reflexivity]. Qed.

(** ** The box maximiser *)

Lemma wrap32_small (z : Z) :
  (- 2 ^ 31 <= z < 2 ^ 31)%Z -> wrap32 z = z.
Proof. intros Hz. unfold wrap32. rewrite Z.mod_small; lia. Qed.

Lemma num_trial_points_small (lower : list R) :
  (500 * Z.of_nat (length lower) < 2 ^ 31)%Z ->
  num_trial_points lower = Z.min 2000 (500 * Z.of_nat (length lower)).
Proof.
  intros Hd. unfold num_trial_points, last_dim.
  rewrite (wrap32_small (Z.of_nat (length lower))) by lia.
  rewrite wrap32_small by lia. reflexivity.
Qed.

Lemma flat_map_blocks_length (h : nat -> R -> R) (D : nat) (xs : list R) :
  length (flat_map (fun v => map (fun i => h i v) (seq 0 D)) xs)
  = (length xs * D)%nat.
Proof.
  induction xs as [| x xs IH]; simpl; [reflexivity |].
  now rewrite length_app, length_map, length_seq, IH.
Qed.

Lemma numel_app (a b : list nat) : numel (a ++ b) = (numel a * numel b)%nat.
Proof.
  induction a as [| x a IH]; simpl; [lia |]. rewrite IH. lia.
Qed.

(** Against a tensor whose last axis has the size of the bounds, the
    broadcast succeeds and keeps the shape. *)
Lemma broadcast_bounds_aligned (g : R -> R -> R -> R) (lo hi : list R)
  (x : tensor R) (pre : list nat) :
  shape x = pre ++ [length lo] ->
  well_formed x ->
  exists y,
    broadcast_bounds g lo hi x = Ok y /\
    shape y = pre ++ [length lo] /\
    well_formed y.
Proof.
  intros Hs Hwf. unfold broadcast_bounds. rewrite Hs, last_last, removelast_last.
  unfold well_formed in *. rewrite Hs in Hwf.
  destruct (length lo =? 1)%nat eqn:E1.
  - eexists. split; [reflexivity |]. split; [reflexivity |]. simpl.
    rewrite flat_map_blocks_length, Hwf, !numel_app. simpl.
    apply Nat.eqb_eq in E1. rewrite E1. lia.
  - rewrite Nat.eqb_refl. simpl.
    eexists. split; [reflexivity |]. split; [reflexivity |]. simpl.
    now rewrite imap_length.
Qed.

(** ** Well-formed tensors stay well formed *)

Lemma clamp_index_range (n i : Z) :
  (0 <= n)%Z -> (0 <= clamp_index n i <= n)%Z.
Proof. intros Hn. unfold clamp_index. destruct (Z.ltb_spec i 0); lia. Qed.

Lemma slice_rows_wf {T : Type} (t t' : tensor T) (b e : Z) :
  well_formed t -> slice_rows t b e = Ok t' -> well_formed t'.
Proof.
  unfold well_formed, slice_rows. intros Hwf Hs.
  destruct (shape t) as [| n rest]; [discriminate |].
  injection Hs as <-. simpl in *.
  pose proof (clamp_index_range (Z.of_nat n) b ltac:(lia)) as Hb.
  pose proof (clamp_index_range (Z.of_nat n) e ltac:(lia)) as He.
  rewrite length_firstn, length_skipn, Hwf.
  set (k := numel rest). set (b' := clamp_index (Z.of_nat n) b) in *.
  set (e' := clamp_index (Z.of_nat n) e) in *.
  assert (Hcnt : (Z.to_nat (e' - b') + Z.to_nat b' <= n)%nat) by lia.
  nia.
Qed.

Lemma discrete_space_wf {T : Type} `{Dtype T}
  (points : tensor T) (target_func : tensor T -> tensor T) (p : tensor T) :
  well_formed points -> _discrete_space points target_func = Ok p ->
  well_formed p.
Proof.
  intros Hwf Hrun. unfold _discrete_space in Hrun.
  apply bind_Ok in Hrun. destruct Hrun as (_ & _ & Hrun).
  apply bind_Ok in Hrun. destruct Hrun as (idxs & _ & Hrun).
  apply bind_Ok in Hrun. destruct Hrun as (i & _ & Hrun).
  exact (slice_rows_wf points p _ _ Hwf Hrun).
Qed.

Lemma numel_removelast (dims : list nat) :
  numel dims = (numel (removelast dims) * last dims 1)%nat.
Proof.
  induction dims as [| a [| b dims] IH]; [reflexivity | simpl; lia |].
  change (numel (a :: b :: dims)) with (a * numel (b :: dims))%nat.
  change (removelast (a :: b :: dims)) with (a :: removelast (b :: dims)).
  change (last (a :: b :: dims) 1%nat) with (last (b :: dims) 1%nat).
  rewrite IH. simpl. lia.
Qed.

Lemma broadcast_bounds_wf (g : R -> R -> R -> R) (lo hi : list R) (x y : tensor R) :
  well_formed x -> broadcast_bounds g lo hi x = Ok y -> well_formed y.
Proof.
  unfold well_formed, broadcast_bounds. intros Hwf Hy.
  destruct (last (shape x) 1 =? 1)%nat eqn:E1.
  - injection Hy as <-. simpl. apply Nat.eqb_eq in E1.
    rewrite flat_map_blocks_length, numel_app, Hwf.
    rewrite (numel_removelast (shape x)), E1. simpl. lia.
  - destruct ((length lo =? 1) || (last (shape x) 1 =? length lo))%nat;
      [| discriminate].
    injection Hy as <-. simpl. now rewrite imap_length.
Qed.

Section BoxFacts.

Variable sample : list R -> list R -> Z -> result (tensor R).
Variable gradient : (tensor R -> result (tensor R)) -> tensor R -> tensor R.
Variable lbfgs_minimize :
  (tensor R -> result (tensor R * tensor R)) -> tensor R -> result lbfgs_result.

Lemma objective_defined (lower upper : list R) (target_func : tensor R -> tensor R)
  (x : tensor R) :
  score_contract target_func (length lower) ->
  shape x = [1%nat; length lower] ->
  well_formed x ->
  exists v, _objective {| low := lower; high := upper |} target_func x = Ok v.
Proof.
  intros Hf Hs Hwf. unfold _objective, forward. simpl.
  destruct (broadcast_bounds_aligned Sigmoid_forward lower upper x [1%nat] Hs Hwf)
    as (y & Hy & Hsy & Hwfy).
  rewrite Hy. simpl.
  destruct (Hf y [1%nat] Hsy Hwfy) as [Hsf _].
  unfold tf_squeeze_last, tf_neg. simpl. rewrite Hsf. simpl. eauto.
Qed.

(** A whole run of the box maximiser, stage by stage. *)
Lemma box_run (lower upper : list R) (target_func : tensor R -> tensor R) :
  (1 <= length lower)%nat ->
  (500 * Z.of_nat (length lower) < 2 ^ 31)%Z ->
  sample_contract sample lower upper ->
  score_contract target_func (length lower) ->
  lbfgs_contract lbfgs_minimize ->
  let bijector := {| low := lower; high := upper |} in
  exists pts p0 x0 r y,
    sample lower upper (Z.min 2000 (500 * Z.of_nat (length lower))) = Ok pts /\
    _discrete_space pts target_func = Ok p0 /\
    inverse bijector p0 = Ok x0 /\
    lbfgs_minimize (value_and_gradient gradient (_objective bijector target_func)) x0
      = Ok r /\
    forward bijector (position r) = Ok y /\
    shape y = [1%nat; length lower] /\
    _box sample gradient lbfgs_minimize lower upper target_func
      = Ok (y, if converged r then [] else [non_convergence_warning]).
Proof.
  intros HD Hsmall Hsample Hf Hlbfgs bijector.
  set (D := length lower) in *.
  set (n := Z.min 2000 (500 * Z.of_nat D)).
  assert (Hn : (1 <= n)%Z) by (unfold n; lia).
  destruct (Hsample n ltac:(lia)) as (pts & Hpts & Hspts & Hwfpts).
  fold D in Hspts.
  destruct (Hf pts [Z.to_nat n] Hspts Hwfpts) as [Hsf Hwff].
  destruct (discrete_space_spec pts target_func (Z.to_nat n) D Hspts
              ltac:(lia) Hsf Hwff)
    as (i & b & Hi & _ & Hp0 & _).
  set (p0 := Tensor [1%nat; D] (row D i (data pts))) in *.
  assert (Hwfp0 : well_formed p0).
  { unfold well_formed, p0. simpl.
    rewrite (row_length D i (Z.to_nat n)); [lia | | exact Hi].
    unfold well_formed in Hwfpts. rewrite Hspts in Hwfpts. simpl in Hwfpts. lia. }
  destruct (broadcast_bounds_aligned Sigmoid_inverse lower upper p0 [1%nat]
              eq_refl Hwfp0)
    as (x0 & Hx0 & Hsx0 & Hwfx0).
  destruct (Hlbfgs (value_and_gradient gradient (_objective bijector target_func))
              x0 Hwfx0)
    as (r & Hr & Hsr & Hwfr).
  { intros x Hsx Hwfx. unfold value_and_gradient.
    destruct (objective_defined lower upper target_func x Hf) as [v Hv];
      [rewrite Hsx, Hsx0; reflexivity | exact Hwfx |].
    fold bijector in Hv. rewrite Hv. simpl. eauto. }
  destruct (broadcast_bounds_aligned Sigmoid_forward lower upper (position r)
              [1%nat] ltac:(rewrite Hsr, Hsx0; reflexivity) Hwfr)
    as (y & Hy & Hsy & _).
  exists pts, p0, x0, r, y. repeat split; try assumption.
  unfold _box, discretize.
  rewrite (num_trial_points_small lower Hsmall). fold D n.
  rewrite Hpts. simpl. rewrite Hp0. simpl.
  unfold inverse. simpl. rewrite Hx0. simpl.
  fold bijector. rewrite Hr. simpl.
  unfold forward. simpl. rewrite Hy. simpl.
  now destruct (converged r).
Qed.

(** What a returned result of the box maximiser is made of. *)
Lemma box_result (lower upper : list R) (target_func : tensor R -> tensor R)
  (y : tensor R) (printed : list string) :
  _box sample gradient lbfgs_minimize lower upper target_func = Ok (y, printed) ->
  let bijector := {| low := lower; high := upper |} in
  exists pts p0 x0 r,
    sample lower upper (num_trial_points lower) = Ok pts /\
    _discrete_space pts target_func = Ok p0 /\
    inverse bijector p0 = Ok x0 /\
    lbfgs_minimize (value_and_gradient gradient (_objective bijector target_func)) x0
      = Ok r /\
    forward bijector (position r) = Ok y /\
    printed = (if converged r then [] else [non_convergence_warning]).
Proof.
  intros Hrun bijector. unfold _box, discretize in Hrun. fold bijector in Hrun.
  apply bind_Ok in Hrun. destruct Hrun as (space & Hspace & Hrun).
  apply bind_Ok in Hspace. destruct Hspace as (pts & Hpts & Hspace).
  injection Hspace as <-.
  apply bind_Ok in Hrun. destruct Hrun as (p0 & Hp0 & Hrun).
  apply bind_Ok in Hrun. destruct Hrun as (x0 & Hx0 & Hrun).
  apply bind_Ok in Hrun. destruct Hrun as (r & Hr & Hrun).
  apply bind_Ok in Hrun. destruct Hrun as (y' & Hy & Hrun).
  injection Hrun as -> <-.
  exists pts, p0, x0, r. repeat split; try assumption.
  now destruct (converged r).
Qed.

End BoxFacts.

(** Forward after inverse, over a whole tensor. *)
Lemma round_trip_blocks (lo hi : list R) (xs : list R) :
  Forall (fun v => (nth 0 lo 0 < v < nth 0 hi 0)%R) xs ->
  flat_map (fun v => map (fun i => at_bounds Sigmoid_forward lo hi i v) (seq 0 1))
    (flat_map (fun v => map (fun i => at_bounds Sigmoid_inverse lo hi i v) (seq 0 1))
       xs)
  = xs.
Proof.
  induction 1 as [| v xs Hv _ IH]; simpl; [reflexivity |].
  simpl in IH. rewrite IH. f_equal.
  unfold at_bounds. now apply Sigmoid_forward_inverse.
Qed.

Lemma round_trip_imap (lo hi : list R) (D : nat) (xs : list R) :
  (forall j, (j < length xs)%nat ->
     (nth (j mod D) lo 0 < nth j xs 0 < nth (j mod D) hi 0)%R) ->
  imap (fun j v => at_bounds Sigmoid_forward lo hi (j mod D) v)
    (imap (fun j v => at_bounds Sigmoid_inverse lo hi (j mod D) v) xs)
  = xs.
Proof.
  intros Hin. apply (nth_ext _ _ 0%R 0%R).
  - now rewrite !imap_length.
  - intros j Hj. rewrite !imap_length in Hj.
    rewrite (imap_nth _ _ 0%R 0%R j) by now rewrite imap_length.
    rewrite (imap_nth _ _ 0%R 0%R j Hj).
    unfold at_bounds. apply Sigmoid_forward_inverse. now apply Hin.
Qed.

Section BoxClaims.

Variable sample : list R -> list R -> Z -> result (tensor R).
Variable gradient : (tensor R -> result (tensor R)) -> tensor R -> tensor R.
Variable lbfgs_minimize :
  (tensor R -> result (tensor R * tensor R)) -> tensor R -> result lbfgs_result.

(** Every coordinate of a point the box maximiser returns lies strictly
    between the bounds of that coordinate. *)
Lemma box_result_open (lower upper : list R) (target_func : tensor R -> tensor R)
  (y : tensor R) (printed : list string) :
  strict_bounds lower upper ->
  sample_well_formed sample lower upper ->
  lbfgs_well_formed lbfgs_minimize ->
  _box sample gradient lbfgs_minimize lower upper target_func = Ok (y, printed) ->
  forall j, (j < length (data y))%nat ->
    (nth (j mod length lower) lower 0 < nth j (data y) 0
     < nth (j mod length lower) upper 0)%R.
Proof.
  intros [_ Hb] Hwfs Hwfl Hrun.
  destruct (box_result sample gradient lbfgs_minimize lower upper target_func
              y printed Hrun)
    as (pts & p0 & x0 & r & Hpts & Hp0 & Hx0 & Hr & Hy & _).
  assert (Hwfr : well_formed (position r)).
  { eapply Hwfl; [| exact Hr].
    apply (broadcast_bounds_wf Sigmoid_inverse lower upper p0 x0); [| exact Hx0].
    apply (discrete_space_wf pts target_func p0); [| exact Hp0].
    exact (Hwfs _ pts Hpts). }
  unfold forward in Hy. simpl in Hy.
  apply (broadcast_bounds_elements
           (fun i v => (nth i lower 0 < v < nth i upper 0)%R)
           Sigmoid_forward lower upper (position r) y).
  - intros i v Hi. unfold at_bounds. apply Sigmoid_forward_open. now apply Hb.
  - exact Hwfr.
  - exact Hy.
Qed.

Lemma optimize_box_result (lower upper : list R)
  (target_func : tensor R -> tensor R) (y : tensor R) (printed : list string) :
  optimize sample gradient lbfgs_minimize (Box lower upper) target_func
    = Ok (Some y, printed) ->
  _box sample gradient lbfgs_minimize lower upper target_func = Ok (y, printed).
Proof.
  simpl. intros Hrun. apply bind_Ok in Hrun.
  destruct Hrun as ([y' printed'] & Hbox & Hret).
  simpl in Hret. now injection Hret as -> ->.
Qed.

(** C2.  For a box with [lower < upper] in every coordinate, every
    coordinate of the point [optimize] returns lies within the bounds of
    that coordinate, whatever the local search reports about convergence
    (the result holds for every run, with or without the warning). *)
Theorem optimize_box_within_bounds (lower upper : list R)
  (target_func : tensor R -> tensor R) (y : tensor R) (printed : list string) :
  strict_bounds lower upper ->
  sample_well_formed sample lower upper ->
  lbfgs_well_formed lbfgs_minimize ->
  optimize sample gradient lbfgs_minimize (Box lower upper) target_func
    = Ok (Some y, printed) ->
  forall j, (j < length (data y))%nat ->
    (nth (j mod length lower) lower 0 <= nth j (data y) 0
     <= nth (j mod length lower) upper 0)%R.
Proof.
  intros Hb Hwfs Hwf Hrun j Hj. apply optimize_box_result in Hrun.
  pose proof (box_result_open lower upper target_func y printed Hb Hwfs Hwf Hrun j Hj).
  lra.
Qed.


(** C6.  When the sampler, the acquisition function and the local search
    keep their contracts, the box maximiser returns: the point is the
    forward transform of the final position of the local search, started
    from the inverse transform of the seed; on non-convergence the warning
    is printed and the same point is returned, on convergence nothing is
    printed. *)
Theorem box_non_convergence_is_a_warning (lower upper : list R)
  (target_func : tensor R -> tensor R) :
  (1 <= length lower)%nat ->
  (500 * Z.of_nat (length lower) < 2 ^ 31)%Z ->
  sample_contract sample lower upper ->
  score_contract target_func (length lower) ->
  lbfgs_contract lbfgs_minimize ->
  let bijector := {| low := lower; high := upper |} in
  let run := _box sample gradient lbfgs_minimize lower upper target_func in
  exists pts p0 x0 r y,
    sample lower upper (num_trial_points lower) = Ok pts /\
    _discrete_space pts target_func = Ok p0 /\
    inverse bijector p0 = Ok x0 /\
    lbfgs_minimize (value_and_gradient gradient (_objective bijector target_func)) x0
      = Ok r /\
    forward bijector (position r) = Ok y /\
    (converged r = false -> run = Ok (y, [non_convergence_warning])) /\
    (converged r = true -> run = Ok (y, [])).
Proof.
  intros HD Hsmall Hsample Hf Hlbfgs bijector run.
  destruct (box_run sample gradient lbfgs_minimize lower upper target_func
              HD Hsmall Hsample Hf Hlbfgs)
    as (pts & p0 & x0 & r & y & Hpts & Hp0 & Hx0 & Hr & Hy & _ & Hrun).
  exists pts, p0, x0, r, y.
  rewrite (num_trial_points_small lower Hsmall).
  repeat split; try assumption; intros Hc; unfold run; rewrite Hrun, Hc;
    reflexivity.
Qed.

(** C7.  The objective of the local search is the negated score of the
    forward-transformed input without its trailing axis of size 1: where
    the score tensor has shape [pre ++ [1]], the objective has shape [pre]
    and holds the negated scores. *)
Theorem objective_is_negated_score (lower upper : list R)
  (target_func : tensor R -> tensor R) (x y : tensor R) (pre : list nat) :
  let bijector := {| low := lower; high := upper |} in
  forward bijector x = Ok y ->
  shape (target_func y) = pre ++ [1%nat] ->
  _objective bijector target_func x
    = Ok (Tensor pre (map Ropp (data (target_func y)))).
Proof.
  intros bijector Hy Hs. unfold _objective. rewrite Hy. simpl.
  unfold tf_squeeze_last, tf_neg. simpl. rewrite Hs.
  destruct (pre ++ [1%nat]) as [| d ds] eqn:E.
  - now destruct pre.
  - rewrite <- E. rewrite last_last, removelast_last. reflexivity.
Qed.

(** C8.  For a point whose coordinates lie strictly between the bounds of
    the box, of shape [pre ++ [D]] for a box of dimension [D], the forward
    transform of its inverse transform is the point itself. *)
Theorem bijector_round_trip (lower upper : list R) (p : tensor R) (pre : list nat) :
  let bijector := {| low := lower; high := upper |} in
  shape p = pre ++ [length lower] ->
  (forall j, (j < length (data p))%nat ->
     (nth (j mod length lower) lower 0 < nth j (data p) 0
      < nth (j mod length lower) upper 0)%R) ->
  bind (inverse bijector p) (forward bijector) = Ok p.
Proof.
  intros bijector Hs Hin. destruct p as [sh xs]. simpl in *. subst sh.
  unfold inverse, forward, broadcast_bounds. simpl.
  rewrite last_last, removelast_last.
  destruct (length lower =? 1)%nat eqn:E1.
  - apply Nat.eqb_eq in E1. simpl.
    rewrite last_last, removelast_last, E1. simpl. f_equal. f_equal.
    apply round_trip_blocks. apply Forall_forall. intros v Hv.
    destruct (In_nth xs v 0%R Hv) as (j & Hj & <-).
    specialize (Hin j Hj). rewrite E1, Nat.mod_1_r in Hin. exact Hin.
  - rewrite Nat.eqb_refl. simpl.
    rewrite last_last, E1, Nat.eqb_refl. simpl. f_equal. f_equal.
    apply round_trip_imap. exact Hin.
Qed.

(** Within the 32-bit range of [tf.shape], that is for a box of dimension
    [D] with [500 * D] below [2 ^ 31], the box maximiser asks the sampler
    for exactly [min(2000, 500 * D)] points: 500 for [D = 1], 2000 for
    [D = 4] and for [D = 5]; a failure of the sampler at that count is the
    failure of the maximiser, and a sampler that keeps its contract yields
    a discrete space of exactly that many points. *)
Theorem box_discretization_budget (lower upper : list R) :
  (500 * Z.of_nat (length lower) < 2 ^ 31)%Z ->
  let D := Z.of_nat (length lower) in
  num_trial_points lower = Z.min 2000 (500 * D) /\
  (D = 1%Z -> num_trial_points lower = 500%Z) /\
  (D = 4%Z -> num_trial_points lower = 2000%Z) /\
  (D = 5%Z -> num_trial_points lower = 2000%Z) /\
  (forall e target_func,
     sample lower upper (Z.min 2000 (500 * D)) = Raise e ->
     _box sample gradient lbfgs_minimize lower upper target_func = Raise e) /\
  (sample_contract sample lower upper ->
   exists pts,
     discretize sample lower upper (num_trial_points lower)
       = Ok (DiscreteSearchSpace pts) /\
     shape pts = [Z.to_nat (Z.min 2000 (500 * D)); length lower]).
Proof.
  intros Hsmall D.
  pose proof (num_trial_points_small lower Hsmall) as Hn. fold D in Hn.
  split; [exact Hn |].
  repeat split.
  - intros HD. rewrite Hn, HD. reflexivity.
  - intros HD. rewrite Hn, HD. reflexivity.
  - intros HD. rewrite Hn, HD. reflexivity.
  - intros e target_func He. unfold _box, discretize. rewrite Hn, He.
    reflexivity.
  - intros Hsample.
    destruct (Hsample (Z.min 2000 (500 * D)) ltac:(lia))
      as (pts & Hpts & Hspts & _).
    exists pts. unfold discretize. rewrite Hn, Hpts. simpl. now split.
Qed.

End BoxClaims.

(** C4.  The budget is computed in int32 and overflows.  For a box of
    4294968 dimensions the formula [min(2000, 500 * D)] gives 2000, but
    [500 * D] wraps around to -2147483296, which [tf.minimum] returns: the
    box maximiser asks the sampler for a negative number of points, and
    the error of a sampler that rejects it is the outcome of the
    maximiser. *)
Theorem box_discretization_budget_overflow :
  let lower := repeat 0%R (Z.to_nat 4294968) in
  let D := Z.of_nat (length lower) in
  D = 4294968%Z /\
  Z.min 2000 (500 * D) = 2000%Z /\
  num_trial_points lower = (-2147483296)%Z /\
  forall sample gradient lbfgs_minimize upper target_func e,
    sample lower upper (-2147483296)%Z = Raise e ->
    _box sample gradient lbfgs_minimize lower upper target_func = Raise e.
Proof.
  cbv zeta.
  assert (Hn : num_trial_points (repeat 0%R (Z.to_nat 4294968))
               = (-2147483296)%Z).
  { unfold num_trial_points, last_dim. rewrite repeat_length.
    rewrite Z2Nat.id by lia. reflexivity. }
  rewrite repeat_length, Z2Nat.id by lia.
  repeat split; try assumption.
  intros sample gradient lbfgs_minimize upper target_func e He.
  unfold _box, discretize. rewrite Hn, He. reflexivity.
Qed.

(** ** The builder of the deep inverse-Wishart model *)

(** C9.  With query points of rank 2, fewer of them than [num_inducing],
    and a search space that is given and is not a [Box], the builder raises
    its [ValueError] and leaves the trace as it found it: nothing was
    sampled and no module was constructed. *)
Theorem build_rejects_search_space_that_is_no_box
  (sample_sobol : Architectures.trace -> list R -> list R -> Z -> tensor R)
  (randn : Architectures.trace -> list Z -> tensor R)
  (choice : Architectures.trace -> Z -> Z -> list nat)
  (query_points : tensor R) (num_layers num_inducing : Z)
  (observations : option (tensor R)) (likelihood_noise_variance : R)
  (space : SearchSpace) (likelihood_lr_scale : R) (tr : Architectures.trace)
  (num_data input_dim : nat) :
  shape query_points = [num_data; input_dim] ->
  (num_inducing > Z.of_nat num_data)%Z ->
  (forall lower upper, space <> Box lower upper) ->
  Architectures.build_sqexp_deep_inv_wishart sample_sobol randn choice
    query_points num_layers num_inducing observations likelihood_noise_variance
    (Some space) likelihood_lr_scale tr
  = (tr, Raise (ValueError
                  [Text "Currently only `Box` instances are supported for `search_space`."])).
Proof.
  intros Hs Hn Hspace.
  unfold Architectures.build_sqexp_deep_inv_wishart, Architectures.mbind,
    Architectures.lift, Architectures.assert_rank_2, Architectures.len.
  rewrite Hs.
  destruct (Z.gtb_spec num_inducing (Z.of_nat num_data)) as [_ | Hle]; [| lia].
  destruct space as [points | lower upper | name].
  - reflexivity.
  - now destruct (Hspace lower upper).
  - reflexivity.
Qed.

Lemma build_rejects_search_space_that_is_no_box_witness :
  Architectures.build_sqexp_deep_inv_wishart
    (fun _ _ _ _ => Tensor [] []) (fun _ _ => Tensor [] []) (fun _ _ _ => [])
    (Tensor [2; 1]%nat [0; 1]%R) 3 3 None 1
    (Some (OtherSearchSpace "TaggedProductSearchSpace")) 1 []
  = ([], Raise (ValueError
                  [Text "Currently only `Box` instances are supported for `search_space`."])).
Proof.
  apply (build_rejects_search_space_that_is_no_box
           (fun _ _ _ _ => Tensor [] []) (fun _ _ => Tensor [] [])
           (fun _ _ _ => [])
           (Tensor [2; 1]%nat [0; 1]%R) 3 3 None 1
           (OtherSearchSpace "TaggedProductSearchSpace") 1 [] 2 1).
  - reflexivity.
  - reflexivity.
  - intros lower upper. discriminate.
Defined.

(** ** The small collaborators keep the contracts *)

Lemma concat_repeat_length {A : Type} (l : list A) (n : nat) :
  length (concat (repeat l n)) = (n * length l)%nat.
Proof.
  induction n as [| n IH]; simpl; [reflexivity |].
  now rewrite length_app, IH.
Qed.

Lemma sample_mid_well_formed (lower upper : list R) :
  length lower = length upper -> sample_well_formed sample_mid lower upper.
Proof.
  intros Hlen n pts. unfold sample_mid.
  destruct (n <? 0)%Z; [discriminate |]. intros Hpts. injection Hpts as <-.
  unfold well_formed. simpl.
  rewrite concat_repeat_length, length_map, length_combine, <- Hlen. lia.
Qed.

Lemma sample_mid_contract (lower upper : list R) :
  length lower = length upper -> sample_contract sample_mid lower upper.
Proof.
  intros Hlen n Hn. unfold sample_mid.
  destruct (Z.ltb_spec n 0) as [Hneg | _]; [lia |].
  eexists. split; [reflexivity |]. split; [reflexivity |].
  apply (sample_mid_well_formed lower upper Hlen n). unfold sample_mid.
  destruct (Z.ltb_spec n 0) as [Hneg | _]; [lia | reflexivity].
Qed.

Lemma score_contract_identity : score_contract (fun t => t) 1.
Proof. intros x pre Hs Hwf. now split. Qed.

Lemma lbfgs_stay_well_formed (c : bool) : lbfgs_well_formed (lbfgs_stay c).
Proof.
  intros vg x0 r Hwf Hr. unfold lbfgs_stay in Hr.
  apply bind_Ok in Hr. destruct Hr as (_ & _ & Hr). now injection Hr as <-.
Qed.

Lemma lbfgs_stay_contract (c : bool) : lbfgs_contract (lbfgs_stay c).
Proof.
  intros vg x0 Hwf Hvg. unfold lbfgs_stay.
  destruct (Hvg x0 eq_refl Hwf) as [v Hv]. rewrite Hv. simpl.
  eexists. split; [reflexivity |]. now split.
Qed.

Lemma unit_interval_bounds : strict_bounds [0%R] [1%R].
Proof.
  split; [reflexivity |].
  intros [| i] Hi; simpl in *; [lra | lia].
Qed.

(** A run of the box maximiser on the unit interval, with the identity as
    acquisition function and a local search that does not converge. *)
Lemma unit_interval_run :
  exists y,
    optimize sample_mid gradient_zero (lbfgs_stay false) (Box [0%R] [1%R])
      (fun t => t)
    = Ok (Some y, [non_convergence_warning]).
Proof.
  destruct (box_run sample_mid gradient_zero (lbfgs_stay false) [0%R] [1%R]
              (fun t => t))
    as (pts & p0 & x0 & r & y & _ & _ & _ & Hr & _ & _ & Hrun).
  - simpl. lia.
  - reflexivity.
  - now apply sample_mid_contract.
  - exact score_contract_identity.
  - apply lbfgs_stay_contract.
  - unfold lbfgs_stay in Hr. apply bind_Ok in Hr.
    destruct Hr as (_ & _ & Hr). injection Hr as <-. simpl in Hrun.
    exists y. unfold optimize. now rewrite Hrun.
Qed.

(** ** The claims at concrete inputs *)

Example discrete_identity_Z :
  _discrete_space (Tensor [3; 1]%nat [0; 1; 2]%Z) (fun t => t)
  = Ok (Tensor [1; 1]%nat [2%Z]).
Proof. reflexivity. Qed.

Lemma optimize_discrete_argmax_witness :
  let points := Tensor [3; 1]%nat [0; 1; 2]%R in
  let score := fun j => nth j (data points) 0%R in
  exists i,
    (i < 3)%nat /\
    optimize sample_mid gradient_zero (lbfgs_stay false)
      (DiscreteSearchSpace points) (fun t => t)
      = Ok (Some (Tensor [1; 1]%nat (row 1 i (data points))), []) /\
    length (row 1 i (data points)) = 1%nat /\
    (forall j, (j < 3)%nat -> (score j <= score i)%R) /\
    (forall j, (j < i)%nat -> (score j < score i)%R).
Proof.
  exact (optimize_discrete_argmax sample_mid gradient_zero (lbfgs_stay false)
           (Tensor [3; 1]%nat [0; 1; 2]%R) (fun t => t) 3 1
           eq_refl eq_refl (le_S _ _ (le_S _ _ (le_n 1))) eq_refl eq_refl).
Defined.

(** The discrete scenario of the specification: the points 0, 1 and 2
    scored by the identity; the point 2 is returned, with shape [1, 1]. *)
Example discrete_identity_R :
  optimize sample_mid gradient_zero (lbfgs_stay false)
    (DiscreteSearchSpace (Tensor [3; 1]%nat [0; 1; 2]%R)) (fun t => t)
  = Ok (Some (Tensor [1; 1]%nat [2%R]), []).
Proof.
  destruct (discrete_space_spec (Tensor [3; 1]%nat [0; 1; 2]%R) (fun t => t) 3 1
              eq_refl (le_S _ _ (le_S _ _ (le_n 1))) eq_refl eq_refl)
    as (i & b & Hi & Hb & Hrun & Hmax & _).
  unfold optimize. rewrite Hrun.
  specialize (Hmax 2%nat 2%R eq_refl). apply Rltb_false in Hmax.
  destruct i as [| [| [| i]]]; simpl in Hb; try lia;
    injection Hb as <-; try lra; reflexivity.
Qed.

Lemma discrete_shape_contract_witness :
  _discrete_space (Tensor [3; 1]%nat [0; 1; 2]%Z)
    (fun _ => Tensor [3; 2]%nat [0; 0; 1; 1; 2; 2]%Z)
  = Raise (ValueError
             [Text "The result of function target_func has an invalid shape: ";
              FmtShape [3; 2]%Z;
              Text "."]).
Proof.
  apply (proj2 (discrete_shape_contract (Tensor [3; 1]%nat [0; 1; 2]%Z)
                  (fun _ => Tensor [3; 2]%nat [0; 0; 1; 1; 2; 2]%Z))).
  intros n. discriminate.
Defined.

(** C5, as stated, fails: for a class without a registered maximiser the
    call returns [None]; no error is raised. *)
Lemma optimize_unregistered_counterexample :
  let run := optimize sample_mid gradient_zero (lbfgs_stay false)
               (OtherSearchSpace "TaggedProductSearchSpace") (fun t => t) in
  run = Ok (None, []) /\ forall e, run <> Raise e.
Proof. split; [reflexivity | discriminate]. Qed.

Lemma optimize_box_within_bounds_witness :
  exists y printed,
    optimize sample_mid gradient_zero (lbfgs_stay false) (Box [0%R] [1%R])
      (fun t => t)
    = Ok (Some y, printed) /\
    forall j, (j < length (data y))%nat ->
      (nth (j mod 1) [0%R] 0 <= nth j (data y) 0 <= nth (j mod 1) [1%R] 0)%R.
Proof.
  destruct unit_interval_run as [y Hrun].
  exists y, [non_convergence_warning]. split; [exact Hrun |].
  exact (optimize_box_within_bounds sample_mid gradient_zero (lbfgs_stay false)
           [0%R] [1%R] (fun t => t) y [non_convergence_warning]
           unit_interval_bounds
           (sample_mid_well_formed [0%R] [1%R] eq_refl)
           (lbfgs_stay_well_formed false) Hrun).
Defined.


Section Saturation.

Import PrimFloat.

(** The sigmoid on float64 is below 1 at 36 and reaches 1 at 37. *)
Example sigmoid_saturates :
  Float64.sigmoid 0%float = 0.5%float /\
  Float64.sigmoid 36%float = 0x1.ffffffffffffep-1%float /\
  Float64.sigmoid 37%float = 1%float.
Proof. vm_compute. repeat split. Qed.


End Saturation.

Lemma box_discretization_budget_witness :
  num_trial_points [0; 0; 0; 0]%R = 2000%Z /\
  num_trial_points [0; 0; 0; 0; 0]%R = 2000%Z /\
  num_trial_points [0%R] = 500%Z.
Proof.
  pose proof (box_discretization_budget sample_mid gradient_zero
                (lbfgs_stay false) [0; 0; 0; 0]%R [1; 1; 1; 1]%R eq_refl)
    as (_ & _ & H4 & _).
  pose proof (box_discretization_budget sample_mid gradient_zero
                (lbfgs_stay false) [0; 0; 0; 0; 0]%R [1; 1; 1; 1; 1]%R eq_refl)
    as (_ & _ & _ & H5 & _).
  pose proof (box_discretization_budget sample_mid gradient_zero
                (lbfgs_stay false) [0%R] [1%R] eq_refl)
    as (_ & H1 & _).
  exact (conj (H4 eq_refl) (conj (H5 eq_refl) (H1 eq_refl))).
Defined.

Lemma box_non_convergence_is_a_warning_witness :
  exists r y,
    converged r = false /\
    forward {| low := [0%R]; high := [1%R] |} (position r) = Ok y /\
    _box sample_mid gradient_zero (lbfgs_stay false) [0%R] [1%R] (fun t => t)
    = Ok (y, [non_convergence_warning]).
Proof.
  destruct (box_non_convergence_is_a_warning sample_mid gradient_zero
              (lbfgs_stay false) [0%R] [1%R] (fun t => t)
              (le_n 1) eq_refl
              (sample_mid_contract [0%R] [1%R] eq_refl)
              score_contract_identity
              (lbfgs_stay_contract false))
    as (pts & p0 & x0 & r & y & _ & _ & _ & Hr & Hy & Hwarn & _).
  assert (Hc : converged r = false).
  { unfold lbfgs_stay in Hr. apply bind_Ok in Hr.
    destruct Hr as (_ & _ & Hr). now injection Hr as <-. }
  exists r, y. split; [exact Hc |]. split; [exact Hy |]. exact (Hwarn Hc).
Defined.

Lemma objective_is_negated_score_witness :
  _objective {| low := [0%R]; high := [1%R] |} (fun t => t)
    (Tensor [1; 1]%nat [0%R])
  = Ok (Tensor [1%nat] [(- Sigmoid_forward 0 1 0)%R]).
Proof.
  exact (objective_is_negated_score [0%R] [1%R] (fun t => t)
           (Tensor [1; 1]%nat [0%R])
           (Tensor [1; 1]%nat [Sigmoid_forward 0 1 0])
           [1%nat] eq_refl eq_refl).
Defined.

Lemma bijector_round_trip_witness :
  let bijector := {| low := [0%R]; high := [1%R] |} in
  let p := Tensor [1; 1]%nat [(1 / 2)%R] in
  bind (inverse bijector p) (forward bijector) = Ok p.
Proof.
  apply (bijector_round_trip [0%R] [1%R] (Tensor [1; 1]%nat [(1 / 2)%R]) [1%nat]).
  - reflexivity.
  - intros [| j] Hj; simpl in *; [lra | lia].
Defined.

(** * Further properties of the optimiser *)

(** ** The discrete maximiser at its edges *)

(** X1.  When the scores have shape [0, 1], as on a discrete space without
    points, the shape check passes and the maximiser raises the error of
    [tf.argmax] on an empty axis. *)
Theorem discrete_space_without_scores {T : Type} `{Dtype T}
  (points : tensor T) (target_func : tensor T -> tensor T) :
  shape (target_func points) = [0; 1]%nat ->
  _discrete_space points target_func
  = Raise (InvalidArgumentError
             [Text "Reduction axis 0 is empty in shape "; FmtShape [0; 1]%Z]).
Proof.
  intros Hs. unfold _discrete_space.
  unfold assert_shapes_any_1. rewrite Hs. simpl.
  unfold tf_argmax0, tf_shape. rewrite Hs. reflexivity.
Qed.

Lemma discrete_space_without_scores_witness :
  _discrete_space (Tensor [0; 2]%nat (@nil Z)) (fun _ => Tensor [0; 1]%nat [])
  = Raise (InvalidArgumentError
             [Text "Reduction axis 0 is empty in shape "; FmtShape [0; 1]%Z]).
Proof.
  exact (discrete_space_without_scores (Tensor [0; 2]%nat (@nil Z))
           (fun _ => Tensor [0; 1]%nat []) eq_refl).
Defined.

(** X2.  With [M >= 1] scores of shape [M, 1] for [N] points, whatever [M]
    and [N] are, the maximiser raises nothing: it returns the row of the
    points at the index [i] of the first largest score, or a tensor without
    rows, of shape [0, D], when [i] is not below [N]. *)
Theorem discrete_space_any_batch {T : Type} `{Dtype T}
  (points : tensor T) (target_func : tensor T -> tensor T) (N D M : nat) :
  shape points = [N; D] ->
  shape (target_func points) = [M; 1%nat] ->
  well_formed (target_func points) ->
  (1 <= M)%nat ->
  exists i b,
    nth_error (data (target_func points)) i = Some b /\
    (forall j y, nth_error (data (target_func points)) j = Some y ->
                 lt b y = false) /\
    (forall j y, (j < i)%nat ->
                 nth_error (data (target_func points)) j = Some y ->
                 lt y b = true) /\
    _discrete_space points target_func
    = Ok (if (i <? N)%nat then Tensor [1%nat; D] (row D i (data points))
          else Tensor [0%nat; D] []).
Proof.
  intros Hp Hs Hwf HM.
  unfold well_formed in Hwf. rewrite Hs in Hwf. simpl in Hwf.
  rewrite Nat.mul_1_r in Hwf.
  assert (Hne : data (target_func points) <> [])
    by (destruct (data (target_func points)); simpl in Hwf; [lia | easy]).
  destruct (argmax_list_spec _ Hne) as (b & Hb & Hmax & Hfirst).
  set (i := argmax_list (data (target_func points))) in *.
  assert (Hi : (i < M)%nat)
    by (rewrite <- Hwf; apply nth_error_Some; congruence).
  exists i, b. repeat split; try assumption.
  unfold _discrete_space, assert_shapes_any_1, tf_argmax0.
  rewrite Hs. simpl.
  destruct (M =? 0)%nat eqn:E; [apply Nat.eqb_eq in E; lia |].
  simpl. rewrite (column_one M _ Hwf). fold i.
  unfold item0, slice_rows. simpl. rewrite Hp. unfold clamp_index.
  destruct (Z.of_nat i <? 0)%Z eqn:E1; [apply Z.ltb_lt in E1; lia |].
  destruct (Z.of_nat i + 1 <? 0)%Z eqn:E2; [apply Z.ltb_lt in E2; lia |].
  destruct (Nat.ltb_spec i N) as [Hlt | Hge].
  - rewrite !Z.min_l by lia.
    replace (Z.of_nat i + 1 - Z.of_nat i)%Z with 1%Z by lia.
    rewrite Nat2Z.id. simpl. unfold row.
    now rewrite !Nat.mul_1_r, Nat.add_0_r.
  - rewrite !Z.min_r by lia. rewrite Z.sub_diag. reflexivity.
Qed.

Lemma discrete_space_any_batch_witness :
  exists i b,
    nth_error [0; 9; 4]%Z i = Some b /\
    (forall j y, nth_error [0; 9; 4]%Z j = Some y -> (b <? y)%Z = false) /\
    (forall j y, (j < i)%nat -> nth_error [0; 9; 4]%Z j = Some y ->
                 (y <? b)%Z = true) /\
    _discrete_space (Tensor [1; 2]%nat [5; 6]%Z)
      (fun _ => Tensor [3; 1]%nat [0; 9; 4]%Z)
    = Ok (if (i <? 1)%nat then Tensor [1; 2]%nat (row 2 i [5; 6]%Z)
          else Tensor [0; 2]%nat []).
Proof.
  exact (discrete_space_any_batch (Tensor [1; 2]%nat [5; 6]%Z)
           (fun _ => Tensor [3; 1]%nat [0; 9; 4]%Z) 1 2 3
           eq_refl eq_refl eq_refl (le_S _ _ (le_S _ _ (le_n 1)))).
Defined.

(** ** The stages of the box maximiser *)

Lemma discrete_space_bad_shape {T : Type} `{Dtype T}
  (points : tensor T) (target_func : tensor T -> tensor T) :
  (forall n, shape (target_func points) <> [n; 1%nat]) ->
  _discrete_space points target_func
  = Raise (ValueError
             [Text "The result of function target_func has an invalid shape: ";
              FmtShape (tf_shape (target_func points));
              Text "."]).
Proof.
  intros Hn. unfold _discrete_space, assert_shapes_any_1.
  destruct (shape (target_func points)) as [| n [| [| [| k]] [| c rest]]] eqn:Hs;
    try reflexivity.
  now destruct (Hn n).
Qed.

Section BoxStages.

Variable sample : list R -> list R -> Z -> result (tensor R).
Variable gradient : (tensor R -> result (tensor R)) -> tensor R -> tensor R.
Variable lbfgs_minimize :
  (tensor R -> result (tensor R * tensor R)) -> tensor R -> result lbfgs_result.

(** The seed of the local search: a row of the sampled trial points. *)
Lemma box_seed (lower upper : list R) (target_func : tensor R -> tensor R) :
  (1 <= length lower)%nat ->
  (500 * Z.of_nat (length lower) < 2 ^ 31)%Z ->
  sample_contract sample lower upper ->
  score_contract target_func (length lower) ->
  exists pts n i,
    sample lower upper (num_trial_points lower) = Ok pts /\
    shape pts = [n; length lower] /\
    well_formed pts /\
    (i < n)%nat /\
    _discrete_space pts target_func
    = Ok (Tensor [1%nat; length lower] (row (length lower) i (data pts))) /\
    well_formed (Tensor [1%nat; length lower] (row (length lower) i (data pts))).
Proof.
  intros HD Hsmall Hsample Hf.
  rewrite (num_trial_points_small lower Hsmall).
  set (D := length lower) in *.
  set (n := Z.min 2000 (500 * Z.of_nat D)).
  destruct (Hsample n ltac:(unfold n; lia)) as (pts & Hpts & Hspts & Hwfpts).
  fold D in Hspts.
  destruct (Hf pts [Z.to_nat n] Hspts Hwfpts) as [Hsf Hwff].
  destruct (discrete_space_spec pts target_func (Z.to_nat n) D Hspts
              ltac:(unfold n; lia) Hsf Hwff)
    as (i & b & Hi & _ & Hp0 & _).
  exists pts, (Z.to_nat n), i. repeat split; try assumption.
  unfold well_formed. simpl.
  rewrite (row_length D i (Z.to_nat n)); [lia | | exact Hi].
  unfold well_formed in Hwfpts. rewrite Hspts in Hwfpts. simpl in Hwfpts. lia.
Qed.

(** X3.  Under the contracts of its collaborators, [optimize] on a box of
    dimension [D] returns a point of shape [1, D] that holds [D]
    coordinates. *)
Theorem optimize_box_shape (lower upper : list R)
  (target_func : tensor R -> tensor R) :
  (1 <= length lower)%nat ->
  (500 * Z.of_nat (length lower) < 2 ^ 31)%Z ->
  sample_contract sample lower upper ->
  score_contract target_func (length lower) ->
  lbfgs_contract lbfgs_minimize ->
  exists y printed,
    optimize sample gradient lbfgs_minimize (Box lower upper) target_func
    = Ok (Some y, printed) /\
    shape y = [1%nat; length lower] /\
    length (data y) = length lower.
Proof.
  intros HD Hsmall Hsample Hf Hlbfgs.
  destruct (box_seed lower upper target_func HD Hsmall Hsample Hf)
    as (pts & n & i & Hpts & _ & _ & _ & Hp0 & Hwfp0).
  set (p0 := Tensor [1%nat; length lower] (row (length lower) i (data pts))) in *.
  set (bijector := {| low := lower; high := upper |}).
  destruct (broadcast_bounds_aligned Sigmoid_inverse lower upper p0 [1%nat]
              eq_refl Hwfp0)
    as (x0 & Hx0 & Hsx0 & Hwfx0).
  destruct (Hlbfgs (value_and_gradient gradient (_objective bijector target_func))
              x0 Hwfx0)
    as (r & Hr & Hsr & Hwfr).
  { intros x Hsx Hwfx. unfold value_and_gradient.
    destruct (objective_defined lower upper target_func x Hf) as [v Hv];
      [rewrite Hsx, Hsx0; reflexivity | exact Hwfx |].
    fold bijector in Hv. rewrite Hv. simpl. eauto. }
  destruct (broadcast_bounds_aligned Sigmoid_forward lower upper (position r)
              [1%nat] ltac:(rewrite Hsr, Hsx0; reflexivity) Hwfr)
    as (y & Hy & Hsy & Hwfy).
  exists y, (if negb (converged r) then [non_convergence_warning] else []).
  split; [| split; [exact Hsy |]].
  - unfold optimize, _box, discretize. rewrite Hpts. simpl. rewrite Hp0. simpl.
    unfold inverse. simpl. rewrite Hx0. simpl.
    fold bijector. rewrite Hr. simpl.
    unfold forward. simpl. rewrite Hy. reflexivity.
  - unfold well_formed in Hwfy. rewrite Hsy in Hwfy. simpl in Hwfy. lia.
Qed.

(** X4.  When the scores of the sampled trial points do not have shape
    [_, 1], the box maximiser raises the shape-contract error of the
    discrete maximiser; the transform and the local search are not
    reached. *)
Theorem box_shape_contract (lower upper : list R)
  (target_func : tensor R -> tensor R) (pts : tensor R) :
  sample lower upper (num_trial_points lower) = Ok pts ->
  (forall n, shape (target_func pts) <> [n; 1%nat]) ->
  _box sample gradient lbfgs_minimize lower upper target_func
  = Raise (ValueError
             [Text "The result of function target_func has an invalid shape: ";
              FmtShape (tf_shape (target_func pts));
              Text "."]).
Proof.
  intros Hpts Hshape. unfold _box, discretize. rewrite Hpts. simpl.
  now rewrite (discrete_space_bad_shape pts target_func Hshape).
Qed.

(** X7.  Where the score of the forward-transformed input has no trailing
    axis of size 1, the objective of the local search raises the error of
    [tf.squeeze]. *)
Theorem objective_rejects_other_scores (lower upper : list R)
  (target_func : tensor R -> tensor R) (x y : tensor R) :
  forward {| low := lower; high := upper |} x = Ok y ->
  (forall pre, shape (target_func y) <> pre ++ [1%nat]) ->
  exists msg,
    _objective {| low := lower; high := upper |} target_func x
    = Raise (InvalidArgumentError msg).
Proof.
  intros Hy Hs. unfold _objective. rewrite Hy. simpl.
  unfold tf_squeeze_last, tf_neg. simpl.
  destruct (shape (target_func y)) as [| d ds] eqn:E; [eauto |].
  destruct (last (d :: ds) 0 =? 1)%nat eqn:El; [| eauto].
  exfalso. apply (Hs (removelast (d :: ds))).
  apply Nat.eqb_eq in El. rewrite <- El.
  apply app_removelast_last. discriminate.
Qed.

End BoxStages.

(** * Further properties of the builder of the deep inverse-Wishart model *)

Section BuilderFacts.

Variable sample_sobol : Architectures.trace -> list R -> list R -> Z -> tensor R.
Variable randn : Architectures.trace -> list Z -> tensor R.
Variable choice : Architectures.trace -> Z -> Z -> list nat.

Lemma mapM_layer (k : Z) (m : nat) :
  forall (s : nat) (tr : Architectures.trace),
    Architectures.mapM (fun _ => Architectures.layer k) (seq s m) tr
    = (tr ++ concat (repeat (hidden_block_events k) m), Ok (repeat (hidden_block k) m)).
Proof.
  induction m as [| m IH]; intros s tr; simpl.
  - now rewrite app_nil_r.
  - unfold Architectures.mbind at 1.
    unfold Architectures.layer at 1, Architectures.mbind, Architectures.construct.
    simpl. rewrite (IH (S s)). simpl.
    unfold Architectures.ret, hidden_block_events, hidden_block. f_equal.
    now rewrite <- !app_assoc.
Qed.

(** X8.  Query points that do not have rank 2 are rejected first: the
    builder raises the error of the rank check and leaves the trace as it
    found it. *)
Theorem build_rejects_wrong_rank
  (query_points : tensor R) (num_layers num_inducing : Z)
  (observations : option (tensor R)) (likelihood_noise_variance : R)
  (search_space : option SearchSpace) (likelihood_lr_scale : R)
  (tr : Architectures.trace) :
  length (shape query_points) <> 2%nat ->
  Architectures.build_sqexp_deep_inv_wishart sample_sobol randn choice
    query_points num_layers num_inducing observations likelihood_noise_variance
    search_space likelihood_lr_scale tr
  = (tr, Raise (ValueError
                  [Text "For this architecture, the rank of the input data must be 2."])).
Proof.
  intros Hrank.
  unfold Architectures.build_sqexp_deep_inv_wishart, Architectures.mbind,
    Architectures.lift, Architectures.assert_rank_2.
  destruct (shape query_points) as [| a [| b [| c rest]]]; simpl in *;
    try reflexivity.
  lia.
Qed.

(** X9.  Without padding, observations whose last dimension is not 1 are
    rejected with [Output dim must be 1 for this model]; nothing was
    sampled and no module was constructed. *)
Theorem build_rejects_wide_observations
  (query_points obs : tensor R) (num_layers num_inducing : Z)
  (likelihood_noise_variance : R) (search_space : option SearchSpace)
  (likelihood_lr_scale : R) (tr : Architectures.trace)
  (num_data input_dim : nat) (d : Z) :
  shape query_points = [num_data; input_dim] ->
  (num_inducing <= Z.of_nat num_data)%Z ->
  Architectures.shape_last obs = Ok d ->
  d <> 1%Z ->
  Architectures.build_sqexp_deep_inv_wishart sample_sobol randn choice
    query_points num_layers num_inducing (Some obs) likelihood_noise_variance
    search_space likelihood_lr_scale tr
  = (tr, Raise (ValueError [Text "Output dim must be 1 for this model"])).
Proof.
  intros Hs Hn Hd Hne.
  unfold Architectures.build_sqexp_deep_inv_wishart, Architectures.mbind,
    Architectures.lift, Architectures.assert_rank_2, Architectures.len,
    Architectures.ret, Architectures.raise.
  rewrite Hs.
  destruct (Z.gtb_spec num_inducing (Z.of_nat num_data)) as [Hgt | _]; [lia |].
  rewrite Hd.
  destruct (Z.eqb_spec d 1) as [-> | _]; [congruence | reflexivity].
Qed.

(** X10.  Without padding, observations with a last dimension of 1 whose
    number differs from the number of query points are rejected; nothing
    was sampled and no module was constructed. *)
Theorem build_rejects_other_number_of_observations
  (query_points obs : tensor R) (num_layers num_inducing : Z)
  (likelihood_noise_variance : R) (search_space : option SearchSpace)
  (likelihood_lr_scale : R) (tr : Architectures.trace)
  (num_data input_dim : nat) (d0 : Z) :
  shape query_points = [num_data; input_dim] ->
  (num_inducing <= Z.of_nat num_data)%Z ->
  Architectures.shape_last obs = Ok 1%Z ->
  Architectures.shape_first obs = Ok d0 ->
  d0 <> Z.of_nat num_data ->
  Architectures.build_sqexp_deep_inv_wishart sample_sobol randn choice
    query_points num_layers num_inducing (Some obs) likelihood_noise_variance
    search_space likelihood_lr_scale tr
  = (tr, Raise (ValueError
                  [Text "Received a different number of query points and observations"])).
Proof.
  intros Hs Hn Hd Hd0 Hne.
  unfold Architectures.build_sqexp_deep_inv_wishart, Architectures.mbind,
    Architectures.lift, Architectures.assert_rank_2, Architectures.len,
    Architectures.ret, Architectures.raise.
  rewrite Hs.
  destruct (Z.gtb_spec num_inducing (Z.of_nat num_data)) as [Hgt | _]; [lia |].
  rewrite Hd. simpl. rewrite Hd0. simpl.
  destruct (Z.eqb_spec d0 (Z.of_nat num_data)) as [-> | _];
    [congruence | reflexivity].
Qed.

(** X11.  Without padding and without observations, for a positive noise
    variance, the builder returns the network: feature layer, kernel and
    inverse-Wishart layer, then [num_layers - 2] hidden blocks (none when
    [num_layers] is 2 or less), a kernel and the output layer, wrapped with
    the [num_inducing] chosen rows of the query points as inducing data,
    followed by the constant layer and the noise layer of log scale
    [log (sqrt variance)]. *)
Theorem build_network_structure
  (query_points : tensor R) (num_layers num_inducing : Z)
  (likelihood_noise_variance : R) (search_space : option SearchSpace)
  (likelihood_lr_scale : R) (tr : Architectures.trace)
  (num_data input_dim : nat) :
  shape query_points = [num_data; input_dim] ->
  (0 <= num_inducing <= Z.of_nat num_data)%Z ->
  (0 < likelihood_noise_variance)%R ->
  let idx := choice tr (Z.of_nat num_data) num_inducing in
  snd (Architectures.build_sqexp_deep_inv_wishart sample_sobol randn choice
         query_points num_layers num_inducing None likelihood_noise_variance
         search_space likelihood_lr_scale tr)
  = Ok (Architectures.Sequential
          [Architectures.InducingWrapper
             (Architectures.Sequential
                ([Architectures.FeaturesToKernelARD num_inducing input_dim;
                  Architectures.SqExpKernelGram (Some true) (Some false);
                  Architectures.IWLayer num_inducing]
                 ++ repeat (hidden_block num_inducing) (Z.to_nat (num_layers - 2))
                 ++ [Architectures.SqExpKernelGram None None;
                     Architectures.GIGP 1 None num_inducing]))
             num_inducing
             (Architectures.take_rows query_points idx);
           Architectures.ConstantLayer;
           Architectures.NormalLearnedScale
             (ln (sqrt likelihood_noise_variance)) likelihood_lr_scale]).
Proof.
  intros Hs Hn Hv idx.
  unfold Architectures.build_sqexp_deep_inv_wishart, Architectures.mbind,
    Architectures.lift, Architectures.assert_rank_2, Architectures.len,
    Architectures.ret, Architectures.raise, Architectures.draw_choice,
    Architectures.construct, Architectures.log_sqrt.
  rewrite Hs.
  destruct (Z.gtb_spec num_inducing (Z.of_nat num_data)) as [Hgt | _]; [lia |].
  rewrite Hs. simpl.
  destruct (Z.ltb_spec num_inducing 0) as [Hneg | _]; [lia |].
  destruct (Z.ltb_spec (Z.of_nat num_data) num_inducing) as [Hgt | _]; [lia |].
  rewrite mapM_layer.
  destruct (Rle_dec likelihood_noise_variance 0) as [Hle | _]; [lra |].
  reflexivity.
Qed.

(** X12.  In the same setting with a noise variance that is not positive,
    the builder raises [math domain error] late: by then it has chosen the
    inducing points and constructed, in this order, the three input layers,
    the hidden blocks, the kernel and the output layer, the network, its
    inducing wrapper and the constant layer; the noise layer and the model
    are not constructed. *)
Theorem build_rejects_noise_variance_late
  (query_points : tensor R) (num_layers num_inducing : Z)
  (likelihood_noise_variance : R) (search_space : option SearchSpace)
  (likelihood_lr_scale : R) (tr : Architectures.trace)
  (num_data input_dim : nat) :
  shape query_points = [num_data; input_dim] ->
  (0 <= num_inducing <= Z.of_nat num_data)%Z ->
  (likelihood_noise_variance <= 0)%R ->
  let idx := choice tr (Z.of_nat num_data) num_inducing in
  let hidden := Z.to_nat (num_layers - 2) in
  let first :=
    [Architectures.FeaturesToKernelARD num_inducing input_dim;
     Architectures.SqExpKernelGram (Some true) (Some false);
     Architectures.IWLayer num_inducing] in
  let last :=
    [Architectures.SqExpKernelGram None None;
     Architectures.GIGP 1 None num_inducing] in
  let net :=
    Architectures.Sequential
      (first ++ repeat (hidden_block num_inducing) hidden ++ last) in
  Architectures.build_sqexp_deep_inv_wishart sample_sobol randn choice
    query_points num_layers num_inducing None likelihood_noise_variance
    search_space likelihood_lr_scale tr
  = (tr ++ [Architectures.Choice (Z.of_nat num_data) num_inducing]
        ++ map Architectures.Construct first
        ++ concat (repeat (hidden_block_events num_inducing) hidden)
        ++ map Architectures.Construct last
        ++ [Architectures.Construct net;
            Architectures.Construct
              (Architectures.InducingWrapper net num_inducing
                 (Architectures.take_rows query_points idx));
            Architectures.Construct Architectures.ConstantLayer],
     Raise (ValueError [Text "math domain error"])).
Proof.
  intros Hs Hn Hv idx hidden first last net.
  unfold Architectures.build_sqexp_deep_inv_wishart, Architectures.mbind,
    Architectures.lift, Architectures.assert_rank_2, Architectures.len,
    Architectures.ret, Architectures.raise, Architectures.draw_choice,
    Architectures.construct, Architectures.log_sqrt.
  rewrite Hs.
  destruct (Z.gtb_spec num_inducing (Z.of_nat num_data)) as [Hgt | _]; [lia |].
  rewrite Hs. simpl.
  destruct (Z.ltb_spec num_inducing 0) as [Hneg | _]; [lia |].
  destruct (Z.ltb_spec (Z.of_nat num_data) num_inducing) as [Hgt | _]; [lia |].
  rewrite mapM_layer.
  destruct (Rle_dec likelihood_noise_variance 0) as [_ | Hgt]; [| lra].
  f_equal. rewrite <- !app_assoc. reflexivity.
Qed.
(** X13.  When padding is needed and the search space is a box whose
    sampler returns points of the dimension of the query points, the
    builder asks the sampler for exactly [num_inducing - len(query_points)]
    points and then chooses [num_inducing] inducing points among exactly
    [num_inducing] candidates. *)
Theorem build_pads_from_box
  (query_points : tensor R) (num_layers num_inducing : Z)
  (likelihood_noise_variance : R) (lower upper : list R)
  (likelihood_lr_scale : R) (tr : Architectures.trace)
  (num_data input_dim : nat) :
  shape query_points = [num_data; input_dim] ->
  (num_inducing > Z.of_nat num_data)%Z ->
  shape (sample_sobol tr lower upper (num_inducing - Z.of_nat num_data))
  = [Z.to_nat (num_inducing - Z.of_nat num_data); input_dim] ->
  exists rest,
    fst (Architectures.build_sqexp_deep_inv_wishart sample_sobol randn choice
           query_points num_layers num_inducing None likelihood_noise_variance
           (Some (Box lower upper)) likelihood_lr_scale tr)
    = tr ++ Architectures.SampleSobol (num_inducing - Z.of_nat num_data)
         :: Architectures.Choice num_inducing num_inducing
         :: rest.
Proof.
  intros Hs Hn Hsobol.
  unfold Architectures.build_sqexp_deep_inv_wishart, Architectures.mbind,
    Architectures.lift, Architectures.assert_rank_2, Architectures.len,
    Architectures.ret, Architectures.raise, Architectures.draw_choice,
    Architectures.draw_sobol, Architectures.construct,
    Architectures.concatenate0, Architectures.log_sqrt.
  rewrite Hs.
  destruct (Z.gtb_spec num_inducing (Z.of_nat num_data)) as [_ | Hle]; [| lia].
  rewrite Hsobol.
  destruct (list_eq_dec Nat.eq_dec [input_dim] [input_dim]) as [_ | Hne];
    [| congruence].
  simpl.
  replace (Z.of_nat (num_data + Z.to_nat (num_inducing - Z.of_nat num_data)))
    with num_inducing by lia.
  destruct (Z.ltb_spec num_inducing 0) as [Hneg | _]; [lia |].
  rewrite Z.ltb_irrefl.
  rewrite mapM_layer.
  destruct (Rle_dec likelihood_noise_variance 0); simpl;
    rewrite <- !app_assoc; simpl; eauto.
Qed.

(** X14.  When padding is needed and the sampler of the box returns points
    of another dimension than the query points, the builder raises the
    error of [np.concatenate]; the points were sampled, and no module was
    constructed. *)
Theorem build_rejects_box_of_other_dimension
  (query_points : tensor R) (num_layers num_inducing : Z)
  (observations : option (tensor R))
  (likelihood_noise_variance : R) (lower upper : list R)
  (likelihood_lr_scale : R) (tr : Architectures.trace)
  (num_data input_dim k d : nat) :
  shape query_points = [num_data; input_dim] ->
  (num_inducing > Z.of_nat num_data)%Z ->
  shape (sample_sobol tr lower upper (num_inducing - Z.of_nat num_data)) = [k; d] ->
  d <> input_dim ->
  Architectures.build_sqexp_deep_inv_wishart sample_sobol randn choice
    query_points num_layers num_inducing observations likelihood_noise_variance
    (Some (Box lower upper)) likelihood_lr_scale tr
  = (tr ++ [Architectures.SampleSobol (num_inducing - Z.of_nat num_data)],
     Raise (ValueError
              [Text "all the input array dimensions except for the concatenation axis must match exactly"])).
Proof.
  intros Hs Hn Hsobol Hd.
  unfold Architectures.build_sqexp_deep_inv_wishart, Architectures.mbind,
    Architectures.lift, Architectures.assert_rank_2, Architectures.len,
    Architectures.draw_sobol, Architectures.concatenate0.
  rewrite Hs.
  destruct (Z.gtb_spec num_inducing (Z.of_nat num_data)) as [_ | Hle]; [| lia].
  rewrite Hsobol.
  destruct (list_eq_dec Nat.eq_dec [input_dim] [d]) as [Heq | _];
    [congruence | reflexivity].
Qed.

End BuilderFacts.

(** * Properties of the builder of the global-inducing deep Gaussian process *)

Section GIBuilderFacts.

Variable sample_sobol : GI.trace -> list R -> list R -> Z -> tensor R.
Variable randn : GI.trace -> list Z -> tensor R.
Variable choice : GI.trace -> Z -> Z -> list nat.

Lemma mapM_new_reslayer (k : Z) (width m : nat) :
  forall (s : nat) (tr : GI.trace),
    GI.mapM (fun _ => GI.new_reslayer k width) (seq s m) tr
    = (tr ++ concat (repeat (GI.residual_block_events k width) m),
       Ok (repeat (GI.residual_block k width) m)).
Proof.
  induction m as [| m IH]; intros s tr; simpl.
  - now rewrite app_nil_r.
  - unfold GI.mbind at 1.
    unfold GI.new_reslayer at 1, GI.mbind, GI.construct.
    simpl. rewrite (IH (S s)). simpl.
    unfold GI.ret, GI.residual_block_events, GI.residual_block. f_equal.
    now rewrite <- !app_assoc.
Qed.

(** X15.  Like its sibling, [build_bayesfunc_gi_dgp] with query points of
    rank 2, fewer of them than [num_inducing], and a search space that is
    given and is not a [Box] raises its [ValueError] with nothing sampled
    and no module constructed. *)
Theorem gi_build_rejects_search_space_that_is_no_box
  (query_points : tensor R) (num_layers num_inducing : Z)
  (observations : option (tensor R)) (likelihood_noise_variance : R)
  (space : SearchSpace) (likelihood_lr_scale : R) (tr : GI.trace)
  (num_data input_dim : nat) :
  shape query_points = [num_data; input_dim] ->
  (num_inducing > Z.of_nat num_data)%Z ->
  (forall lower upper, space <> Box lower upper) ->
  GI.build_bayesfunc_gi_dgp sample_sobol randn choice
    query_points num_layers num_inducing observations likelihood_noise_variance
    (Some space) likelihood_lr_scale tr
  = (tr, Raise (ValueError
                  [Text "Currently only `Box` instances are supported for `search_space`."])).
Proof.
  intros Hs Hn Hspace.
  unfold GI.build_bayesfunc_gi_dgp, GI.mbind, GI.lift,
    Architectures.assert_rank_2, Architectures.len.
  rewrite Hs.
  destruct (Z.gtb_spec num_inducing (Z.of_nat num_data)) as [_ | Hle]; [| lia].
  destruct space as [points | lower upper | name].
  - reflexivity.
  - now destruct (Hspace lower upper).
  - reflexivity.
Qed.

(** X16.  Without padding and without observations, for a positive noise
    variance, [build_bayesfunc_gi_dgp] returns [num_layers - 1] residual
    blocks (none when [num_layers] is 1 or less), each as wide as the
    input, then a feature layer without trainable noise and the output
    layer with [log_prec_init] 0, wrapped with the chosen rows of the query
    points as inducing data and followed by the constant layer and the
    noise layer. *)
Theorem gi_build_network_structure
  (query_points : tensor R) (num_layers num_inducing : Z)
  (likelihood_noise_variance : R) (search_space : option SearchSpace)
  (likelihood_lr_scale : R) (tr : GI.trace)
  (num_data input_dim : nat) :
  shape query_points = [num_data; input_dim] ->
  (0 <= num_inducing <= Z.of_nat num_data)%Z ->
  (0 < likelihood_noise_variance)%R ->
  let idx := choice tr (Z.of_nat num_data) num_inducing in
  snd (GI.build_bayesfunc_gi_dgp sample_sobol randn choice
         query_points num_layers num_inducing None likelihood_noise_variance
         search_space likelihood_lr_scale tr)
  = Ok (GI.Sequential
          [GI.InducingWrapper
             (GI.Sequential
                (repeat (GI.residual_block num_inducing input_dim)
                        (Z.to_nat (num_layers - 1))
                 ++ [GI.SqExpKernelFeaturesARD num_inducing input_dim false;
                     GI.GIGP 1 None num_inducing None (Some 0%R)]))
             num_inducing
             (Architectures.take_rows query_points idx);
           GI.ConstantLayer;
           GI.NormalLearnedScale
             (ln (sqrt likelihood_noise_variance)) likelihood_lr_scale]).
Proof.
  intros Hs Hn Hv idx.
  unfold GI.build_bayesfunc_gi_dgp, GI.mbind, GI.lift,
    Architectures.assert_rank_2, Architectures.len,
    GI.ret, GI.raise, GI.draw_choice, GI.construct, Architectures.log_sqrt.
  rewrite Hs.
  destruct (Z.gtb_spec num_inducing (Z.of_nat num_data)) as [Hgt | _]; [lia |].
  rewrite Hs. simpl.
  destruct (Z.ltb_spec num_inducing 0) as [Hneg | _]; [lia |].
  destruct (Z.ltb_spec (Z.of_nat num_data) num_inducing) as [Hgt | _]; [lia |].
  rewrite mapM_new_reslayer.
  destruct (Rle_dec likelihood_noise_variance 0) as [Hle | _]; [lra |].
  reflexivity.
Qed.

End GIBuilderFacts.

(** * Properties of sampling from a deep Gaussian process *)

Lemma collect_draws_acc (f_layers : list Utils.f_layer) :
  forall (acc : list Utils.Sample) (c : nat),
    Utils.collect_draws f_layers acc c
    = match Utils.collect_draws f_layers [] c with
      | (c', Utils.Done fs) => (c', Utils.Done (acc ++ fs))
      | (c', Utils.NotImplementedError msg) => (c', Utils.NotImplementedError msg)
      end.
Proof.
  induction f_layers as [| layer rest IH]; intros acc c; simpl.
  - now rewrite app_nil_r.
  - destruct layer as [sample | prior compositor | repr]; [| | reflexivity].
    + rewrite (IH (acc ++ [sample c])), (IH [sample c]).
      destruct (Utils.collect_draws rest [] (S c)) as [c' [fs | msg]];
        [| reflexivity].
      now rewrite <- app_assoc.
    + rewrite (IH (acc ++ [Utils.sample_consistent_lv_layer prior compositor])),
        (IH [Utils.sample_consistent_lv_layer prior compositor]).
      destruct (Utils.collect_draws rest [] c) as [c' [fs | msg]];
        [| reflexivity].
      now rewrite <- app_assoc.
Qed.

Lemma collect_draws_app (l1 l2 : list Utils.f_layer) :
  forall (acc : list Utils.Sample) (c : nat),
    Utils.collect_draws (l1 ++ l2) acc c
    = match Utils.collect_draws l1 acc c with
      | (c1, Utils.Done acc1) => Utils.collect_draws l2 acc1 c1
      | (c1, Utils.NotImplementedError msg) => (c1, Utils.NotImplementedError msg)
      end.
Proof.
  induction l1 as [| layer rest IH]; intros acc c; simpl; [reflexivity |].
  destruct layer as [sample | prior compositor | repr];
    [apply IH | apply IH | reflexivity].
Qed.

Lemma collect_draws_supported (f_layers : list Utils.f_layer) :
  forall (acc : list Utils.Sample) (c : nat),
    forallb Utils.supported f_layers = true ->
    exists fs,
      Utils.collect_draws f_layers acc c
      = (c + length (filter Utils.is_gp f_layers), Utils.Done fs)%nat.
Proof.
  induction f_layers as [| layer rest IH]; intros acc c Hall; simpl in *.
  - exists acc. now rewrite Nat.add_0_r.
  - apply andb_prop in Hall. destruct Hall as [Hl Hrest].
    destruct layer as [sample | prior compositor | repr]; simpl in *.
    + destruct (IH (acc ++ [sample c]) (S c) Hrest) as [fs Hfs].
      exists fs. rewrite Hfs. f_equal. lia.
    + exact (IH _ c Hrest).
    + discriminate.
Qed.

Lemma chained_app (fs1 fs2 : list Utils.Sample) :
  forall (X : tensor R) (c : nat),
    Utils.chained (fs1 ++ fs2) X c
    = match Utils.chained fs1 X c with
      | (c', Ok Y) => Utils.chained fs2 Y c'
      | (c', Raise e) => (c', Raise e)
      end.
Proof.
  induction fs1 as [| f fs1 IH]; intros X c; simpl; [reflexivity |].
  destruct (f X c) as [c' [Y | e]]; [apply IH | reflexivity].
Qed.

Lemma first_unsupported (f_layers : list Utils.f_layer) :
  forallb Utils.supported f_layers = false ->
  exists pre repr rest,
    f_layers = pre ++ Utils.OtherLayer repr :: rest /\
    forallb Utils.supported pre = true.
Proof.
  induction f_layers as [| layer rest IH]; simpl; [discriminate |].
  destruct layer as [sample | prior compositor | repr]; simpl.
  - intros Hrest. destruct (IH Hrest) as (pre & r & rest' & -> & Hpre).
    now exists (Utils.GPLayer sample :: pre), r, rest'.
  - intros Hrest. destruct (IH Hrest) as (pre & r & rest' & -> & Hpre).
    now exists (Utils.LatentVariableLayer prior compositor :: pre), r, rest'.
  - intros _. now exists [], repr, rest.
Qed.

Lemma sample_dgp_stops (pre rest : list Utils.f_layer) (repr : string) (c : nat) :
  forallb Utils.supported pre = true ->
  Utils.sample_dgp (pre ++ Utils.OtherLayer repr :: rest) c
  = ((c + length (filter Utils.is_gp pre))%nat,
     Utils.NotImplementedError
       [Text "Sampling not implemented for "; Text repr]).
Proof.
  intros Hpre. unfold Utils.sample_dgp. rewrite collect_draws_app.
  destruct (collect_draws_supported pre [] c Hpre) as [fs Hfs].
  rewrite Hfs. reflexivity.
Qed.

(** X17.  [sample_dgp] stops at the first layer that is neither a
    [GPLayer] nor a [LatentVariableLayer]: it raises [NotImplementedError]
    naming that layer, after one draw for every [GPLayer] before it;
    the layers behind it are not looked at. *)
Theorem sample_dgp_stops_at_unsupported_layer
  (pre rest : list Utils.f_layer) (repr : string) (c : nat) :
  forallb Utils.supported pre = true ->
  Utils.sample_dgp (pre ++ Utils.OtherLayer repr :: rest) c
  = ((c + length (filter Utils.is_gp pre))%nat,
     Utils.NotImplementedError
       [Text "Sampling not implemented for "; Text repr]).
Proof.
  intros Hpre. unfold Utils.sample_dgp.
  rewrite collect_draws_app.
  destruct (collect_draws_supported pre [] c Hpre) as [fs Hfs].
  rewrite Hfs. simpl. reflexivity.
Qed.

(** X18.  [sample_dgp] returns a sample exactly when every layer of the
    model is a [GPLayer] or a [LatentVariableLayer]; it has then drawn once
    for every [GPLayer] and not for the latent-variable layers, whose prior
    is sampled when the sample is called. *)
Theorem sample_dgp_returns_iff_supported (f_layers : list Utils.f_layer) (c : nat) :
  (exists f,
     Utils.sample_dgp f_layers c
     = ((c + length (filter Utils.is_gp f_layers))%nat, Utils.Done f))
  <-> forallb Utils.supported f_layers = true.
Proof.
  split.
  - intros [f Hf].
    destruct (forallb Utils.supported f_layers) eqn:Hall; [reflexivity |].
    destruct (first_unsupported f_layers Hall) as (pre & r & rest & -> & Hpre).
    rewrite (sample_dgp_stops pre rest r c Hpre) in Hf. discriminate.
  - intros Hall. unfold Utils.sample_dgp.
    destruct (collect_draws_supported f_layers [] c Hall) as [fs Hfs].
    rewrite Hfs. eauto.
Qed.

(** X19.  The sample of a model whose layers are those of one model
    followed by those of another is the sample of the first chained with
    the sample of the second: the output of the first is the input of the
    second, and an error of the first ends the call. *)
Theorem sample_dgp_chains (l1 l2 : list Utils.f_layer) (c c1 c2 : nat)
  (f1 f2 : Utils.Sample) :
  Utils.sample_dgp l1 c = (c1, Utils.Done f1) ->
  Utils.sample_dgp l2 c1 = (c2, Utils.Done f2) ->
  exists f,
    Utils.sample_dgp (l1 ++ l2) c = (c2, Utils.Done f) /\
    forall X s,
      f X s = match f1 X s with
              | (s', Ok Y) => f2 Y s'
              | (s', Raise e) => (s', Raise e)
              end.
Proof.
  unfold Utils.sample_dgp. intros H1 H2.
  rewrite collect_draws_app.
  destruct (Utils.collect_draws l1 [] c) as [c1' [fs1 | msg]];
    [| discriminate].
  injection H1 as -> <-.
  rewrite collect_draws_acc.
  destruct (Utils.collect_draws l2 [] c1) as [c2' [fs2 | msg]];
    [| discriminate].
  injection H2 as -> <-.
  eexists. split; [reflexivity |].
  intros X s. apply chained_app.
Qed.

(** ** Tiling the sample of a prior over a batch *)

Lemma rows_of_one_shift {T : Type} (xs pre : list T) :
  flat_map (fun i => row 1 i (pre ++ xs)) (seq (length pre) (length xs)) = xs.
Proof.
  revert pre. induction xs as [| x xs IH]; intros pre; simpl; [reflexivity |].
  unfold row at 1. rewrite Nat.mul_1_r.
  rewrite skipn_app, Nat.sub_diag, skipn_all. simpl. f_equal.
  specialize (IH (pre ++ [x])).
  rewrite <- app_assoc, length_app in IH. simpl in IH.
  rewrite Nat.add_1_r in IH. exact IH.
Qed.

Lemma tile_data_last {T : Type} (xs : list T) :
  Utils.tile_data [length xs] [1%nat] xs = xs.
Proof.
  simpl. rewrite app_nil_r. exact (rows_of_one_shift xs []).
Qed.

Lemma concat_repeat_concat {T : Type} (xs : list T) (a b : nat) :
  concat (repeat (concat (repeat xs a)) b) = concat (repeat xs (b * a)).
Proof.
  induction b as [| b IH]; simpl; [reflexivity |].
  rewrite IH, repeat_app, concat_app. reflexivity.
Qed.

Lemma numel_ones (k L : nat) : numel (repeat 1%nat k ++ [L]) = L.
Proof. induction k as [| k IH]; simpl; lia. Qed.

Lemma tile_data_leading_ones {T : Type} (xs : list T) (batch : list nat) :
  Utils.tile_data (repeat 1%nat (length batch) ++ [length xs])
    (batch ++ [1%nat]) xs
  = concat (repeat xs (numel batch)).
Proof.
  induction batch as [| b batch IH].
  - simpl app. rewrite tile_data_last. simpl. now rewrite app_nil_r.
  - change (Utils.tile_data (repeat 1%nat (length (b :: batch)) ++ [length xs])
              ((b :: batch) ++ [1%nat]) xs)
      with (concat (repeat
                      (flat_map
                         (fun i => Utils.tile_data
                                     (repeat 1%nat (length batch) ++ [length xs])
                                     (batch ++ [1%nat])
                                     (row (numel (repeat 1%nat (length batch)
                                                  ++ [length xs])) i xs))
                         (seq 0 1))
                      b)).
    simpl flat_map. rewrite app_nil_r, numel_ones.
    unfold row. simpl skipn. rewrite firstn_all, IH.
    simpl numel. apply concat_repeat_concat.
Qed.

Lemma iter_expand_dims {T : Type} (k : nat) (t : tensor T) :
  Nat.iter k Utils.tf_expand_dims0 t = Tensor (repeat 1%nat k ++ shape t) (data t).
Proof.
  induction k as [| k IH]; simpl; [now destruct t |].
  rewrite IH. reflexivity.
Qed.

Lemma batch_shape_of (batch : list nat) (d : nat) (X : tensor R) :
  shape X = batch ++ [d] ->
  Forall (fun b => (Z.of_nat b < 2 ^ 31)%Z) batch ->
  removelast (tf_shape X) = map Z.of_nat batch.
Proof.
  intros Hs Hsmall. unfold tf_shape. rewrite Hs, map_app. simpl.
  rewrite removelast_last. apply map_ext_in. intros b Hb.
  rewrite Forall_forall in Hsmall. apply wrap32_small.
  specialize (Hsmall b Hb). lia.
Qed.

Lemma tiled_shape (batch : list nat) (L : nat) :
  map (fun p => (fst p * Z.to_nat (snd p))%nat)
      (combine (repeat 1%nat (length batch) ++ [L]) (map Z.of_nat batch ++ [1%Z]))
  = batch ++ [L].
Proof.
  induction batch as [| b batch IH]; simpl.
  - now rewrite Nat.mul_1_r.
  - rewrite IH, Nat2Z.id. f_equal. lia.
Qed.

(** X20.  Called on [X] of shape [batch ++ [d]], the sample of a
    latent-variable layer whose prior yields a vector of length [L] passes
    to the compositor [X] and a tensor of shape [batch ++ [L]] that holds
    the one vector drawn from the prior once for every point of the batch;
    the call makes one draw. *)
Theorem sample_lv_is_consistent
  (prior_sample : nat -> tensor R)
  (compositor : tensor R -> tensor R -> result (tensor R))
  (X : tensor R) (c : nat) (batch : list nat) (d L : nat) :
  shape X = batch ++ [d] ->
  Forall (fun b => (Z.of_nat b < 2 ^ 31)%Z) batch ->
  shape (prior_sample c) = [L] ->
  well_formed (prior_sample c) ->
  Utils.sample_consistent_lv_layer prior_sample compositor X c
  = (S c,
     compositor X
       (Tensor (batch ++ [L])
               (concat (repeat (data (prior_sample c)) (numel batch))))).
Proof.
  intros Hs Hsmall Hp Hwf.
  unfold well_formed in Hwf. rewrite Hp in Hwf. simpl in Hwf.
  rewrite Nat.mul_1_r in Hwf.
  unfold Utils.sample_consistent_lv_layer.
  rewrite (batch_shape_of batch d X Hs Hsmall), length_map, iter_expand_dims, Hp.
  unfold Utils.tf_tile. simpl shape. simpl data.
  rewrite !length_app, length_map, repeat_length. simpl length.
  rewrite Nat.eqb_refl. simpl negb.
  assert (Hpos : existsb (fun m => (m <? 0)%Z) (map Z.of_nat batch ++ [1%Z]) = false).
  { rewrite existsb_app. simpl. rewrite orb_false_r.
    clear. induction batch as [| b batch IH]; simpl; [reflexivity |].
    rewrite IH. destruct (Z.ltb_spec (Z.of_nat b) 0); [lia | reflexivity]. }
  rewrite Hpos, tiled_shape.
  rewrite map_app, map_map. simpl map.
  rewrite (map_ext _ (fun b => b) Nat2Z.id), map_id.
  rewrite <- Hwf, tile_data_leading_ones. reflexivity.
Qed.

(** X21.  When the prior of a latent-variable layer yields a tensor that is
    not a vector, the call of its sample raises the error of [tf.tile]
    after the draw; the compositor is not reached. *)
Theorem sample_lv_rejects_other_ranks
  (prior_sample : nat -> tensor R)
  (compositor : tensor R -> tensor R -> result (tensor R))
  (X : tensor R) (c : nat) :
  length (shape (prior_sample c)) <> 1%nat ->
  exists msg,
    Utils.sample_consistent_lv_layer prior_sample compositor X c
    = (S c, Raise (InvalidArgumentError msg)).
Proof.
  intros Hrank. unfold Utils.sample_consistent_lv_layer.
  rewrite iter_expand_dims. unfold Utils.tf_tile. simpl shape.
  rewrite !length_app, repeat_length. simpl length.
  destruct (Nat.eqb_spec (length (removelast (tf_shape X)) + 1)
              (length (removelast (tf_shape X))
               + length (shape (prior_sample c)))) as [Heq | _];
    [lia |].
  simpl. eauto.
Qed.

(** * The further properties at concrete inputs *)

Lemma optimize_box_shape_witness :
  exists y printed,
    optimize sample_mid gradient_zero (lbfgs_stay true) (Box [0%R] [1%R])
      (fun t => t)
    = Ok (Some y, printed) /\
    shape y = [1; 1]%nat /\
    length (data y) = 1%nat.
Proof.
  exact (optimize_box_shape sample_mid gradient_zero (lbfgs_stay true)
           [0%R] [1%R] (fun t => t) (le_n 1) eq_refl
           (sample_mid_contract [0%R] [1%R] eq_refl)
           score_contract_identity
           (lbfgs_stay_contract true)).
Defined.

Lemma box_shape_contract_witness :
  exists shp,
    _box sample_mid gradient_zero (lbfgs_stay true) [0%R] [1%R]
      (fun _ => Tensor [3; 2]%nat [])
    = Raise (ValueError
               [Text "The result of function target_func has an invalid shape: ";
                FmtShape shp;
                Text "."]).
Proof.
  eexists.
  apply (box_shape_contract sample_mid gradient_zero (lbfgs_stay true)
           [0%R] [1%R] (fun _ => Tensor [3; 2]%nat [])
           (Tensor [500; 1]%nat
              (concat (repeat [((0 + 1) / 2)%R] 500)))).
  - reflexivity.
  - intros n. discriminate.
Defined.

Lemma objective_rejects_other_scores_witness :
  exists msg,
    _objective {| low := [0%R]; high := [1%R] |}
      (fun _ => Tensor [1; 2]%nat [0; 0]%R) (Tensor [1; 1]%nat [0%R])
    = Raise (InvalidArgumentError msg).
Proof.
  apply (objective_rejects_other_scores [0%R] [1%R]
           (fun _ => Tensor [1; 2]%nat [0; 0]%R) (Tensor [1; 1]%nat [0%R])
           (Tensor [1; 1]%nat [Sigmoid_forward 0 1 0])).
  - reflexivity.
  - intros pre Hpre. simpl in Hpre.
    apply (f_equal (fun l => last l 0%nat)) in Hpre.
    rewrite last_last in Hpre. discriminate.
Defined.

(** Samplers for the builders: zeros from the box, nothing from the
    normal distribution, and the first [k] indices as the choice. *)
Lemma build_rejects_wrong_rank_witness :
  Architectures.build_sqexp_deep_inv_wishart
    (fun _ _ _ n => Tensor [Z.to_nat n; 1%nat] (repeat 0%R (Z.to_nat n)))
    (fun _ _ => Tensor [] []) (fun _ _ k => seq 0 (Z.to_nat k))
    (Tensor [3]%nat [0; 1; 2]%R) 3 2 None 1 None 1 []
  = ([], Raise (ValueError
                  [Text "For this architecture, the rank of the input data must be 2."])).
Proof.
  apply build_rejects_wrong_rank. simpl. discriminate.
Defined.

Lemma build_rejects_wide_observations_witness :
  Architectures.build_sqexp_deep_inv_wishart
    (fun _ _ _ n => Tensor [Z.to_nat n; 1%nat] (repeat 0%R (Z.to_nat n)))
    (fun _ _ => Tensor [] []) (fun _ _ k => seq 0 (Z.to_nat k))
    (Tensor [2; 1]%nat [0; 1]%R) 3 2
    (Some (Tensor [2; 2]%nat [0; 0; 1; 1]%R)) 1 None 1 []
  = ([], Raise (ValueError [Text "Output dim must be 1 for this model"])).
Proof.
  apply (build_rejects_wide_observations _ _ _
           (Tensor [2; 1]%nat [0; 1]%R) (Tensor [2; 2]%nat [0; 0; 1; 1]%R)
           3 2 1 None 1 [] 2 1 2%Z).
  - reflexivity.
  - discriminate.
  - reflexivity.
  - discriminate.
Defined.

Lemma build_rejects_other_number_of_observations_witness :
  Architectures.build_sqexp_deep_inv_wishart
    (fun _ _ _ n => Tensor [Z.to_nat n; 1%nat] (repeat 0%R (Z.to_nat n)))
    (fun _ _ => Tensor [] []) (fun _ _ k => seq 0 (Z.to_nat k))
    (Tensor [2; 1]%nat [0; 1]%R) 3 2
    (Some (Tensor [3; 1]%nat [0; 1; 2]%R)) 1 None 1 []
  = ([], Raise (ValueError
                  [Text "Received a different number of query points and observations"])).
Proof.
  apply (build_rejects_other_number_of_observations _ _ _
           (Tensor [2; 1]%nat [0; 1]%R) (Tensor [3; 1]%nat [0; 1; 2]%R)
           3 2 1 None 1 [] 2 1 3%Z).
  - reflexivity.
  - discriminate.
  - reflexivity.
  - reflexivity.
  - discriminate.
Defined.

Lemma build_network_structure_witness :
  snd (Architectures.build_sqexp_deep_inv_wishart
         (fun _ _ _ n => Tensor [Z.to_nat n; 1%nat] (repeat 0%R (Z.to_nat n)))
         (fun _ _ => Tensor [] []) (fun _ _ k => seq 0 (Z.to_nat k))
         (Tensor [2; 1]%nat [0; 1]%R) 1 2 None 1 None 1 [])
  = Ok (Architectures.Sequential
          [Architectures.InducingWrapper
             (Architectures.Sequential
                [Architectures.FeaturesToKernelARD 2 1;
                 Architectures.SqExpKernelGram (Some true) (Some false);
                 Architectures.IWLayer 2;
                 Architectures.SqExpKernelGram None None;
                 Architectures.GIGP 1 None 2])
             2 (Tensor [2; 1]%nat [0; 1]%R);
           Architectures.ConstantLayer;
           Architectures.NormalLearnedScale (ln (sqrt 1)) 1]).
Proof.
  apply (build_network_structure
           (fun _ _ _ n => Tensor [Z.to_nat n; 1%nat] (repeat 0%R (Z.to_nat n)))
           (fun _ _ => Tensor [] []) (fun _ _ k => seq 0 (Z.to_nat k))
           (Tensor [2; 1]%nat [0; 1]%R) 1 2 1 None 1 [] 2 1).
  - reflexivity.
  - split; discriminate.
  - exact Rlt_0_1.
Defined.

Lemma build_rejects_noise_variance_late_witness :
  Architectures.build_sqexp_deep_inv_wishart
    (fun _ _ _ n => Tensor [Z.to_nat n; 1%nat] (repeat 0%R (Z.to_nat n)))
    (fun _ _ => Tensor [] []) (fun _ _ k => seq 0 (Z.to_nat k))
    (Tensor [2; 1]%nat [0; 1]%R) 2 2 None 0 None 1 []
  = ([Architectures.Choice 2 2;
      Architectures.Construct (Architectures.FeaturesToKernelARD 2 1);
      Architectures.Construct
        (Architectures.SqExpKernelGram (Some true) (Some false));
      Architectures.Construct (Architectures.IWLayer 2);
      Architectures.Construct (Architectures.SqExpKernelGram None None);
      Architectures.Construct (Architectures.GIGP 1 None 2);
      Architectures.Construct
        (Architectures.Sequential
           [Architectures.FeaturesToKernelARD 2 1;
            Architectures.SqExpKernelGram (Some true) (Some false);
            Architectures.IWLayer 2;
            Architectures.SqExpKernelGram None None;
            Architectures.GIGP 1 None 2]);
      Architectures.Construct
        (Architectures.InducingWrapper
           (Architectures.Sequential
              [Architectures.FeaturesToKernelARD 2 1;
               Architectures.SqExpKernelGram (Some true) (Some false);
               Architectures.IWLayer 2;
               Architectures.SqExpKernelGram None None;
               Architectures.GIGP 1 None 2])
           2 (Tensor [2; 1]%nat [0; 1]%R));
      Architectures.Construct Architectures.ConstantLayer],
     Raise (ValueError [Text "math domain error"])).
Proof.
  apply (build_rejects_noise_variance_late
           (fun _ _ _ n => Tensor [Z.to_nat n; 1%nat] (repeat 0%R (Z.to_nat n)))
           (fun _ _ => Tensor [] []) (fun _ _ k => seq 0 (Z.to_nat k))
           (Tensor [2; 1]%nat [0; 1]%R) 2 2 0 None 1 [] 2 1).
  - reflexivity.
  - split; discriminate.
  - apply Rle_refl.
Defined.
Lemma build_pads_from_box_witness :
  exists rest,
    fst (Architectures.build_sqexp_deep_inv_wishart
           (fun _ _ _ n => Tensor [Z.to_nat n; 1%nat] (repeat 0%R (Z.to_nat n)))
           (fun _ _ => Tensor [] []) (fun _ _ k => seq 0 (Z.to_nat k))
           (Tensor [2; 1]%nat [0; 1]%R) 3 5 None 1
           (Some (Box [0%R] [1%R])) 1 [])
    = [] ++ Architectures.SampleSobol (5 - 2) :: Architectures.Choice 5 5 :: rest.
Proof.
  apply (build_pads_from_box
           (fun _ _ _ n => Tensor [Z.to_nat n; 1%nat] (repeat 0%R (Z.to_nat n)))
           (fun _ _ => Tensor [] []) (fun _ _ k => seq 0 (Z.to_nat k))
           (Tensor [2; 1]%nat [0; 1]%R) 3 5 1 [0%R] [1%R] 1 [] 2 1).
  - reflexivity.
  - reflexivity.
  - reflexivity.
Defined.

Lemma build_rejects_box_of_other_dimension_witness :
  Architectures.build_sqexp_deep_inv_wishart
    (fun _ _ _ n => Tensor [Z.to_nat n; 1%nat] (repeat 0%R (Z.to_nat n)))
    (fun _ _ => Tensor [] []) (fun _ _ k => seq 0 (Z.to_nat k))
    (Tensor [2; 2]%nat [0; 1; 2; 3]%R) 3 5 None 1
    (Some (Box [0%R] [1%R])) 1 []
  = ([] ++ [Architectures.SampleSobol (5 - 2)],
     Raise (ValueError
              [Text "all the input array dimensions except for the concatenation axis must match exactly"])).
Proof.
  apply (build_rejects_box_of_other_dimension
           (fun _ _ _ n => Tensor [Z.to_nat n; 1%nat] (repeat 0%R (Z.to_nat n)))
           (fun _ _ => Tensor [] []) (fun _ _ k => seq 0 (Z.to_nat k))
           (Tensor [2; 2]%nat [0; 1; 2; 3]%R) 3 5 None 1 [0%R] [1%R] 1 []
           2 2 3 1).
  - reflexivity.
  - reflexivity.
  - reflexivity.
  - discriminate.
Defined.

Lemma gi_build_rejects_search_space_that_is_no_box_witness :
  GI.build_bayesfunc_gi_dgp
    (fun _ _ _ n => Tensor [Z.to_nat n; 1%nat] (repeat 0%R (Z.to_nat n)))
    (fun _ _ => Tensor [] []) (fun _ _ k => seq 0 (Z.to_nat k))
    (Tensor [2; 1]%nat [0; 1]%R) 3 3 None 1
    (Some (DiscreteSearchSpace (Tensor [2; 1]%nat [0; 1]%R))) 1 []
  = ([], Raise (ValueError
                  [Text "Currently only `Box` instances are supported for `search_space`."])).
Proof.
  apply (gi_build_rejects_search_space_that_is_no_box
           (fun _ _ _ n => Tensor [Z.to_nat n; 1%nat] (repeat 0%R (Z.to_nat n)))
           (fun _ _ => Tensor [] []) (fun _ _ k => seq 0 (Z.to_nat k))
           (Tensor [2; 1]%nat [0; 1]%R) 3 3 None 1
           (DiscreteSearchSpace (Tensor [2; 1]%nat [0; 1]%R)) 1 [] 2 1).
  - reflexivity.
  - reflexivity.
  - intros lower upper. discriminate.
Defined.

Lemma gi_build_network_structure_witness :
  snd (GI.build_bayesfunc_gi_dgp
         (fun _ _ _ n => Tensor [Z.to_nat n; 1%nat] (repeat 0%R (Z.to_nat n)))
         (fun _ _ => Tensor [] []) (fun _ _ k => seq 0 (Z.to_nat k))
         (Tensor [2; 1]%nat [0; 1]%R) 2 2 None 1 None 1 [])
  = Ok (GI.Sequential
          [GI.InducingWrapper
             (GI.Sequential
                [GI.residual_block 2 1;
                 GI.SqExpKernelFeaturesARD 2 1 false;
                 GI.GIGP 1 None 2 None (Some 0%R)])
             2 (Tensor [2; 1]%nat [0; 1]%R);
           GI.ConstantLayer;
           GI.NormalLearnedScale (ln (sqrt 1)) 1]).
Proof.
  apply (gi_build_network_structure
           (fun _ _ _ n => Tensor [Z.to_nat n; 1%nat] (repeat 0%R (Z.to_nat n)))
           (fun _ _ => Tensor [] []) (fun _ _ k => seq 0 (Z.to_nat k))
           (Tensor [2; 1]%nat [0; 1]%R) 2 2 1 None 1 [] 2 1).
  - reflexivity.
  - split; discriminate.
  - exact Rlt_0_1.
Defined.

Lemma sample_dgp_stops_at_unsupported_layer_witness :
  Utils.sample_dgp
    [Utils.GPLayer (fun _ X s => (s, Ok X));
     Utils.OtherLayer "Dense";
     Utils.GPLayer (fun _ X s => (s, Ok X))] 0
  = (1%nat,
     Utils.NotImplementedError
       [Text "Sampling not implemented for "; Text "Dense"]).
Proof.
  exact (sample_dgp_stops_at_unsupported_layer
           [Utils.GPLayer (fun _ X s => (s, Ok X))]
           [Utils.GPLayer (fun _ X s => (s, Ok X))] "Dense" 0 eq_refl).
Defined.

Lemma sample_dgp_chains_witness :
  exists f,
    Utils.sample_dgp
      ([Utils.GPLayer (fun _ X s => (s, Ok (tf_neg X)))]
       ++ [Utils.GPLayer (fun _ X s => (s, Ok (tf_neg X)))]) 0
    = (2%nat, Utils.Done f) /\
    forall X s,
      f X s
      = match Utils.chained [fun X s => (s, Ok (tf_neg X))] X s with
        | (s', Ok Y) => Utils.chained [fun X s => (s, Ok (tf_neg X))] Y s'
        | (s', Raise e) => (s', Raise e)
        end.
Proof.
  exact (sample_dgp_chains
           [Utils.GPLayer (fun _ X s => (s, Ok (tf_neg X)))]
           [Utils.GPLayer (fun _ X s => (s, Ok (tf_neg X)))] 0 1 2
           (Utils.chained [fun X s => (s, Ok (tf_neg X))])
           (Utils.chained [fun X s => (s, Ok (tf_neg X))])
           eq_refl eq_refl).
Defined.

Lemma sample_lv_is_consistent_witness :
  Utils.sample_consistent_lv_layer
    (fun _ => Tensor [2]%nat [7; 8]%R) (fun X w => Ok w)
    (Tensor [3; 1]%nat [0; 1; 2]%R) 0
  = (1%nat, Ok (Tensor [3; 2]%nat [7; 8; 7; 8; 7; 8]%R)).
Proof.
  apply (sample_lv_is_consistent
           (fun _ => Tensor [2]%nat [7; 8]%R) (fun X w => Ok w)
           (Tensor [3; 1]%nat [0; 1; 2]%R) 0 [3%nat] 1 2).
  - reflexivity.
  - repeat constructor.
  - reflexivity.
  - reflexivity.
Defined.

Lemma sample_lv_rejects_other_ranks_witness :
  exists msg,
    Utils.sample_consistent_lv_layer
      (fun _ => Tensor [1; 2]%nat [7; 8]%R) (fun X w => Ok w)
      (Tensor [3; 1]%nat [0; 1; 2]%R) 0
    = (1%nat, Raise (InvalidArgumentError msg)).
Proof.
  apply (sample_lv_rejects_other_ranks
           (fun _ => Tensor [1; 2]%nat [7; 8]%R) (fun X w => Ok w)
           (Tensor [3; 1]%nat [0; 1; 2]%R) 0).
  simpl. discriminate.
Defined.

(** X22.  Without a search space, when padding is needed and observations
    are given, the builder pads the query points with normal draws and then
    the observations with normal draws of their own, so that the padded
    points get random targets, and chooses among exactly [num_inducing]
    candidates. *)
Theorem build_pads_observations_at_random
  (sample_sobol : Architectures.trace -> list R -> list R -> Z -> tensor R)
  (randn : Architectures.trace -> list Z -> tensor R)
  (choice : Architectures.trace -> Z -> Z -> list nat)
  (query_points obs : tensor R) (num_layers num_inducing : Z)
  (likelihood_noise_variance likelihood_lr_scale : R)
  (tr : Architectures.trace) (num_data input_dim : nat) :
  let missing := (num_inducing - Z.of_nat num_data)%Z in
  let points_drawn := Architectures.Randn [missing; Z.of_nat input_dim] in
  shape query_points = [num_data; input_dim] ->
  shape obs = [num_data; 1%nat] ->
  (Z.of_nat num_data < 2 ^ 31)%Z ->
  (num_inducing > Z.of_nat num_data)%Z ->
  shape (randn tr [missing; Z.of_nat input_dim])
  = [Z.to_nat missing; input_dim] ->
  shape (randn (tr ++ [points_drawn]) [missing; 1%Z])
  = [Z.to_nat missing; 1%nat] ->
  exists rest,
    fst (Architectures.build_sqexp_deep_inv_wishart sample_sobol randn choice
           query_points num_layers num_inducing (Some obs)
           likelihood_noise_variance None likelihood_lr_scale tr)
    = tr ++ points_drawn
         :: Architectures.Randn [missing; 1%Z]
         :: Architectures.Choice num_inducing num_inducing
         :: rest.
Proof.
  intros missing points_drawn Hs Ho Hsmall Hn Hr1 Hr2.
  unfold Architectures.build_sqexp_deep_inv_wishart, Architectures.mbind,
    Architectures.lift, Architectures.assert_rank_2, Architectures.len,
    Architectures.ret, Architectures.raise, Architectures.draw_choice,
    Architectures.draw_randn, Architectures.construct,
    Architectures.concatenate0, Architectures.log_sqrt,
    Architectures.shape_last, Architectures.shape_first, tf_shape,
    Architectures.dims_of.
  rewrite Hs, Ho.
  destruct (Z.gtb_spec num_inducing (Z.of_nat num_data)) as [_ | Hle]; [| lia].
  fold missing. cbn [tl map existsb orb].
  destruct (Z.ltb_spec missing 0) as [Hneg | _]; [unfold missing in Hneg; lia |].
  destruct (Z.ltb_spec (Z.of_nat input_dim) 0) as [Hneg | _]; [lia |].
  cbn [orb]. fold points_drawn. rewrite Hr1.
  destruct (list_eq_dec Nat.eq_dec [input_dim] [input_dim]) as [_ | Hne];
    [| congruence].
  cbn [last].
  change (wrap32 (Z.of_nat 1)) with 1%Z. cbn [Z.eqb Pos.eqb negb].
  rewrite (wrap32_small (Z.of_nat num_data)) by lia.
  cbn [nth]. rewrite Z.eqb_refl. cbn [negb].
  destruct (Z.gtb_spec num_inducing (Z.of_nat num_data)) as [_ | Hle]; [| lia].
  fold missing. cbn [tl map existsb orb].
  destruct (Z.ltb_spec missing 0) as [Hneg | _]; [unfold missing in Hneg; lia |].
  change (Z.of_nat 1) with 1%Z. change (1 <? 0)%Z with false.
  cbn [orb]. rewrite Hr2.
  destruct (list_eq_dec Nat.eq_dec [1%nat] [1%nat]) as [_ | Hne];
    [| congruence].
  cbn [shape].
  replace (Z.of_nat (num_data + Z.to_nat missing)) with num_inducing
    by (unfold missing; lia).
  destruct (Z.ltb_spec num_inducing 0) as [Hneg | _]; [lia |].
  rewrite Z.ltb_irrefl.
  rewrite mapM_layer.
  destruct (Rle_dec likelihood_noise_variance 0); simpl;
    rewrite <- !app_assoc; simpl; eauto.
Qed.

Lemma build_pads_observations_at_random_witness :
  exists rest,
    fst (Architectures.build_sqexp_deep_inv_wishart
           (fun _ _ _ n => Tensor [Z.to_nat n; 1%nat] (repeat 0%R (Z.to_nat n)))
           (fun _ dims => Tensor (map Z.to_nat dims) [])
           (fun _ _ k => seq 0 (Z.to_nat k))
           (Tensor [2; 1]%nat [0; 1]%R) 3 5
           (Some (Tensor [2; 1]%nat [4; 5]%R)) 1 None 1 [])
    = [] ++ Architectures.Randn [3; 1]%Z
         :: Architectures.Randn [3; 1]%Z
         :: Architectures.Choice 5 5
         :: rest.
Proof.
  apply (build_pads_observations_at_random
           (fun _ _ _ n => Tensor [Z.to_nat n; 1%nat] (repeat 0%R (Z.to_nat n)))
           (fun _ dims => Tensor (map Z.to_nat dims) [])
           (fun _ _ k => seq 0 (Z.to_nat k))
           (Tensor [2; 1]%nat [0; 1]%R) (Tensor [2; 1]%nat [4; 5]%R)
           3 5 1 1 [] 2 1).
  - reflexivity.
  - reflexivity.
  - reflexivity.
  - reflexivity.
  - reflexivity.
  - reflexivity.
Defined.
